(** * Recipe extraction pipeline of [main.py]: model and verified properties

    The development embeds the Telegram recipe bot of [src/main.py]:
    the two media dataclasses, the four Gemini adapters, the two yt-dlp
    wrappers and [process_url], the orchestrator with its
    [try]/[except]/[finally] skeleton.

    The external collaborators (yt-dlp, the Gemini client, the Telegram
    client, the clock, the process environment) are not part of the
    repository.  They are gathered in a record [World] of oracles: a world
    fixes how each collaborator answers each call.  The code of the
    repository is then a function of the world, written in a small monad
    that threads the local storage and the trace of outward calls and that
    knows three ways for a Python call to end: with a value, with an
    [Exception], or never. *)

From stdpp Require Import base tactics option list gmap sets strings pretty.
From Stdlib Require Import ZArith Lia.

Local Open Scope Z_scope.
Local Open Scope nat_scope.

(** ** Python strings

    A Python [str] is modelled by [string]; one element of the string
    stands for one unit of [len]. *)

Module Str.

(** ["\n"] *)
Definition LF : string := String (Ascii.ascii_of_nat 10) "".

(** [s[:n]] for a non-negative [n]. *)
Fixpoint take (n : nat) (s : string) : string :=
  match n, s with
  | O, _ => ""
  | S _, EmptyString => ""
  | S n', String c s' => String c (take n' s')
  end.

(** [s * n] *)
Fixpoint repeat (s : string) (n : nat) : string :=
  match n with
  | O => ""
  | S n' => s +:+ repeat s n'
  end.

(** [s.endswith(suffix)], as a proposition. *)
Definition ends_with (suffix s : string) : Prop :=
  exists front, s = front +:+ suffix.

(** Truth value of a [str]: only the empty string is falsy. *)
Definition truthy (s : string) : bool :=
  match s with
  | EmptyString => false
  | String _ _ => true
  end.

End Str.

(** ** Python values that may be [None] *)

(** Truth value of a [str | None]: [None] and [""] are falsy. *)
Definition truthy (v : option string) : bool :=
  match v with
  | Some s => Str.truthy s
  | None => false
  end.

(** [v or default] where [v] is a [str | None] and [default] a [str]. *)
Definition py_or (v : option string) (default : string) : string :=
  match v with
  | Some s => if Str.truthy s then s else default
  | None => default
  end.

(** ** The caption of the final message ([process_url], lines 250-258) *)

Module Caption.

Definition max_len : nat := 1024.
Definition overhead : nat := 7.
Definition truncated_suffix : string := Str.LF +:+ "...(truncated)".

(** The marker the specification names, without the line feed. *)
Definition truncation_marker : string := "...(truncated)".

Definition truncate_at : nat :=
  max_len - overhead - String.length truncated_suffix.

(** [caption_text] after the [if len(caption_text) > max_len] statement. *)
Definition caption_text (final_recipe_text : string) : string :=
  if max_len <? String.length final_recipe_text
  then Str.take truncate_at final_recipe_text +:+ truncated_suffix
  else final_recipe_text.

(** [f"```{caption_text}```"] *)
Definition wrap (text : string) : string := "```" +:+ text +:+ "```".

Definition final_caption (final_recipe_text : string) : string :=
  wrap (caption_text final_recipe_text).

End Caption.


(** ** Ways for a call to end, and the trace of outward calls *)

Inductive outcome (A : Type) : Type :=
| Val (a : A)        (** the call returns [a] *)
| Exc (e : string)   (** an [Exception] whose [str] is [e] propagates *)
| Hang.              (** the call never returns *)

Arguments Val {A} a.
Arguments Exc {A} e.
Arguments Hang {A}.

(** The four operations of the language-model adapter. *)
Inductive lm_op : Type :=
| RefineToRecipe        (** [refine_with_gemini] *)
| ConvertToMetric       (** [convert_recipe_to_metric] *)
| TranscribeAudioNotes  (** [analyze_audio_with_gemini] *)
| MergeRecipeAndNotes.  (** [combine_recipe_and_audio] *)

(** What the run does towards the user and the language model, in order.
    [ok] tells whether the transport call returned normally. *)
Inductive event : Type :=
| EvReply (text : string) (ok : bool)
| EvSendVideo (caption : string) (parse_mode : option string)
    (position : nat) (width height duration : option Z) (ok : bool)
| EvLM (op : lm_op).

(** The state a run threads: the paths present on local storage, how many
    times the clock was read, the read position of the open video file,
    and the trace so far. *)
Record State : Type := mkState {
  st_fs : gset string;
  st_reads : nat;
  st_pos : nat;
  st_trace : list event
}.

Definition M (A : Type) : Type := State -> outcome A * State.

Definition ret {A : Type} (a : A) : M A := fun s => (Val a, s).

Definition bind {A B : Type} (m : M A) (f : A -> M B) : M B :=
  fun s =>
    match m s with
    | (Val a, s') => f a s'
    | (Exc e, s') => (Exc e, s')
    | (Hang, s') => (Hang, s')
    end.

Definition raise {A : Type} (e : string) : M A := fun s => (Exc e, s).

Definition hang {A : Type} : M A := fun s => (Hang, s).

(** [try: body  except Exception as e: handler e] *)
Definition try_except {A : Type} (body : M A) (handler : string -> M A) : M A :=
  fun s =>
    match body s with
    | (Exc e, s') => handler e s'
    | r => r
    end.

(** [try: body  finally: cleanup].  The cleanup runs however the body
    ended, provided it ended; an exception of the cleanup replaces the
    body's result. *)
Definition try_finally {A : Type} (body : M A) (cleanup : M unit) : M A :=
  fun s =>
    match body s with
    | (Hang, s') => (Hang, s')
    | (r, s') =>
        match cleanup s' with
        | (Val _, s'') => (r, s'')
        | (Exc e, s'') => (Exc e, s'')
        | (Hang, s'') => (Hang, s'')
        end
    end.

Notation "'let*' x ':=' m 'in' k" := (bind m (fun x => k))
  (at level 10, x pattern, m at level 100, k at level 200).
Notation "m ;; k" := (bind m (fun _ => k))
  (at level 100, k at level 200, right associativity).

(** The state once one more outward call is on the trace. *)
Definition emit (s : State) (ev : event) : State :=
  mkState (st_fs s) (st_reads s) (st_pos s) (st_trace s ++ [ev]).

Definition log (ev : event) : M unit := fun s => (Val tt, emit s ev).

(** [os.path.exists(path)] *)
Definition path_exists (path : string) : M bool :=
  fun s => (Val (bool_decide (path ∈ st_fs s)), s).

(** [open(path, 'rb')]: a fresh handle reads from the start. *)
Definition open_rb : M unit :=
  fun s => (Val tt, mkState (st_fs s) (st_reads s) 0 (st_trace s)).

(** [video_file.seek(n)] *)
Definition seek (n : nat) : M unit :=
  fun s => (Val tt, mkState (st_fs s) (st_reads s) n (st_trace s)).

(** ** The collaborators *)

Inductive status : Type := success | failed.

Global Instance status_eq_dec : EqDecision status.
Proof. solve_decision. Defined.

(** The metadata dictionary of yt-dlp; [.get] yields [None] for a key the
    provider omitted. *)
Record VideoInfo : Type := mkVideoInfo {
  info_width : option Z;
  info_height : option Z;
  info_duration : option Z;
  info_description : option string
}.

(** [audio_file.state.name] of an uploaded file. *)
Inductive file_state : Type :=
| STATE_UNSPECIFIED | PROCESSING | ACTIVE | FAILED.

Global Instance file_state_eq_dec : EqDecision file_state.
Proof. solve_decision. Defined.

(** One answer of the file service: a state, or an exception. *)
Inductive file_obs : Type :=
| ObsState (st : file_state)
| ObsRaise.

Record Message : Type := mkMessage {
  chat_id : Z;
  text : string
}.

(** A world: how every collaborator answers.

    - [GOOGLE_API_KEY]: [os.environ.get("GOOGLE_API_KEY")];
    - [time_time n]: [int(time.time())] at the [n]-th reading;
    - [extract_info url outtmpl format fs]: [YoutubeDL.extract_info] with
      [download=True]; [None] when it raises; in both cases the local
      storage it leaves behind;
    - [download url outtmpl fs]: [YoutubeDL.download]; its return code, or
      [None] when it raises; and the local storage it leaves behind;
    - [generate_content prompt]: the [.text] of the response, or [None]
      when anything between [genai.configure] and [response.text] raises;
    - [upload_file path]: the state of the file [genai.upload_file] returns;
    - [get_file path]: the successive answers of [genai.get_file] for that
      file; once the list is exhausted the service answers [PROCESSING]
      for ever;
    - [generate_content_with_file prompt path]: as [generate_content], for
      the call that carries the uploaded file;
    - [reply_to message text]: [None] when [bot.reply_to] returns, the
      [str] of the exception when it raises;
    - [send_video chat caption parse_mode]: the same for [bot.send_video],
      with the number of bytes the call read from the file;
    - [remove_error path]: [None] when [os.remove(path)] removes the
      file, the [str] of the exception when it raises (the path is a
      directory, the process may not write there). *)
Record World : Type := mkWorld {
  GOOGLE_API_KEY : option string;
  time_time : nat -> Z;
  extract_info : string -> string -> string -> gset string ->
                 option VideoInfo * gset string;
  download : string -> string -> gset string -> option Z * gset string;
  generate_content : string -> option string;
  upload_file : string -> file_obs;
  get_file : string -> list file_obs;
  generate_content_with_file : string -> string -> option string;
  reply_to : Message -> string -> option string;
  send_video : Z -> string -> option string -> option string * nat;
  remove_error : string -> option string
}.

(** [os.remove(path)], called on a path that exists: the file goes, or
    the call raises and the path stays. *)
Definition remove (w : World) (path : string) : M unit :=
  fun s =>
    match remove_error w path with
    | None =>
        (Val tt, mkState (st_fs s ∖ {[path]}) (st_reads s) (st_pos s) (st_trace s))
    | Some e => (Exc e, s)
    end.

(** [int(time.time())] *)
Definition now (w : World) : M Z :=
  fun s => (Val (time_time w (st_reads s)),
            mkState (st_fs s) (S (st_reads s)) (st_pos s) (st_trace s)).

(** [bot.reply_to(message, text)] *)
Definition bot_reply_to (w : World) (message : Message) (text : string) : M unit :=
  match reply_to w message text with
  | None => log (EvReply text true)
  | Some e => log (EvReply text false) ;; raise e
  end.

(** [bot.send_video(chat, video_file, caption=..., parse_mode=..., width=...,
    height=..., duration=...)]: reads the open file from its current
    position. *)
Definition bot_send_video (w : World) (chat : Z) (caption : string)
    (parse_mode : option string) (width height duration : option Z) : M unit :=
  fun s =>
    let '(err, nread) := send_video w chat caption parse_mode in
    let ev ok := EvSendVideo caption parse_mode (st_pos s) width height duration ok in
    let s' ok := mkState (st_fs s) (st_reads s) (st_pos s + nread) (st_trace s ++ [ev ok]) in
    match err with
    | None => (Val tt, s' true)
    | Some e => (Exc e, s' false)
    end.

(** ** The media dataclasses *)

Module Video.

Record t : Type := mk {
  url : string;
  chat_id : Z;
  filepath : string;
  width : option Z;
  height : option Z;
  duration : option Z;
  description : option string;
  format : string
}.

(** [f"video_{self.chat_id}_{int(time.time())}.mp4"] *)
Definition path_of (chat : Z) (time : Z) : string :=
  "video_" +:+ pretty chat +:+ "_" +:+ pretty time +:+ ".mp4".

(** [Video(url=url, chat_id=chat_id)], the clock read by [__post_init__]. *)
Definition init (url : string) (chat : Z) (time : Z) : t :=
  mk url chat (path_of chat time) None None None None "mp4".

End Video.

Module Audio.

Record t : Type := mk {
  url : string;
  chat_id : Z;
  filepath : string
}.

(** [f"audio_{self.chat_id}_{int(time.time())}.mp3"] *)
Definition path_of (chat : Z) (time : Z) : string :=
  "audio_" +:+ pretty chat +:+ "_" +:+ pretty time +:+ ".mp3".

Definition init (url : string) (chat : Z) (time : Z) : t :=
  mk url chat (path_of chat time).

End Audio.

(** ** The language-model adapter *)

Module Prompt.

Import Str.

Definition refine (text_to_refine : string) : string :=
  "You are a helpful assistant that specializes in formatting recipes. "
  +:+ "The following text was extracted from an Instagram video description. "
  +:+ "Please format it into a clear, easy-to-read recipe with a title, "
  +:+ "a list of ingredients, and numbered instructions. If the text does not "
  +:+ "appear to be a recipe, just return the original text."
  +:+ LF +:+ LF +:+ "---" +:+ LF +:+ LF
  +:+ text_to_refine.

Definition convert (recipe_text : string) : string :=
  "You are a helpful assistant that specializes in converting recipe measurements. "
  +:+ "The following recipe uses imperial units. Please convert all volume and weight "
  +:+ "measurements (e.g., oz, lb, cups, tbsp, tsp) to grams. "
  +:+ "Keep the original structure and instructions. If a measurement cannot be "
  +:+ "converted to grams (e.g., '1 large egg', 'a pinch of salt'), leave it as is. "
  +:+ "Return only the converted recipe."
  +:+ LF +:+ LF +:+ "---" +:+ LF +:+ LF
  +:+ recipe_text.

Definition analyze : string :=
  "Listen to the audio from this cooking video. Transcribe any spoken instructions, tips, "
  +:+ "or steps that are relevant to the recipe. Ignore background music or irrelevant chatter. "
  +:+ "If there are no spoken instructions, please state that clearly. "
  +:+ "Present the instructions as a clear list.".

Definition combine (metric_recipe audio_notes : string) : string :=
  "You are a master recipe editor. Below is a recipe generated from a video's description text, "
  +:+ "and a set of notes transcribed from the video's audio. Your task is to create one final, "
  +:+ "comprehensive recipe by intelligently merging the audio notes into the recipe instructions."
  +:+ "The final recipe should be logical, easy to follow, and complete. Remove unneccesary information (i.e. comment calls, etc.)."
  +:+ LF +:+ LF +:+ "--- RECIPE FROM TEXT ---" +:+ LF
  +:+ metric_recipe
  +:+ LF +:+ LF +:+ "--- NOTES FROM AUDIO ---" +:+ LF
  +:+ audio_notes
  +:+ LF +:+ LF +:+ "--- FINAL COMPREHENSIVE RECIPE ---".

End Prompt.

(** [not api_key] for [api_key = os.environ.get("GOOGLE_API_KEY")] *)
Definition api_key_missing (w : World) : bool := negb (truthy (GOOGLE_API_KEY w)).

Definition refine_with_gemini (w : World) (text_to_refine : string) : M (option string) :=
  log (EvLM RefineToRecipe) ;;
  if api_key_missing w then ret None
  else ret (generate_content w (Prompt.refine text_to_refine)).

Definition convert_recipe_to_metric (w : World) (recipe_text : string) : M (option string) :=
  log (EvLM ConvertToMetric) ;;
  if api_key_missing w then ret (Some "API key not found, cannot convert to metric.")
  else ret (generate_content w (Prompt.convert recipe_text)).

(** The loop [while audio_file.state.name == "PROCESSING"] of
    [analyze_audio_with_gemini], over the answers [get_file] still has to
    give.  [current] is the state last seen. *)
Fixpoint wait_while_processing (answers : list file_obs) (current : file_state)
  : outcome file_state :=
  match current with
  | PROCESSING =>
      match answers with
      | [] => Hang
      | ObsRaise :: _ => Exc ""
      | ObsState next :: rest => wait_while_processing rest next
      end
  | _ => Val current
  end.

Definition analyze_audio_with_gemini (w : World) (audio_file_path : string) : M (option string) :=
  log (EvLM TranscribeAudioNotes) ;;
  if api_key_missing w then ret (Some "API key not found, cannot analyze audio.")
  else
    match upload_file w audio_file_path with
    | ObsRaise => ret None
    | ObsState uploaded =>
        match wait_while_processing (get_file w audio_file_path) uploaded with
        | Hang => hang
        | Exc _ => ret None
        | Val FAILED => ret None
        | Val _ => ret (generate_content_with_file w Prompt.analyze audio_file_path)
        end
    end.

Definition combine_recipe_and_audio (w : World) (metric_recipe audio_notes : string)
  : M (option string) :=
  log (EvLM MergeRecipeAndNotes) ;;
  if api_key_missing w then ret (Some "API key not found, cannot combine recipe.")
  else ret (generate_content w (Prompt.combine metric_recipe audio_notes)).

(** ** The media fetcher *)

Definition download_video (w : World) (video : Video.t) : M (status * Video.t) :=
  fun s =>
    let '(r, fs') := extract_info w (Video.url video) (Video.filepath video)
                       (Video.format video) (st_fs s) in
    let s' := mkState fs' (st_reads s) (st_pos s) (st_trace s) in
    match r with
    | Some video_info =>
        (Val (success,
              Video.mk (Video.url video) (Video.chat_id video) (Video.filepath video)
                (info_width video_info) (info_height video_info)
                (info_duration video_info) (info_description video_info)
                (Video.format video)), s')
    | None => (Val (failed, video), s')
    end.

Definition download_audio (w : World) (audio : Audio.t) : M status :=
  fun s =>
    let '(r, fs') := download w (Audio.url audio) (Audio.filepath audio) (st_fs s) in
    let s' := mkState fs' (st_reads s) (st_pos s) (st_trace s) in
    match r with
    | Some _ =>
        (Val (if bool_decide (Audio.filepath audio ∈ fs') then success else failed), s')
    | None => (Val failed, s')
    end.

(** ** The orchestrator: [process_url] *)

Module Reply.

Definition fetching : string := "🔎 Fetching video info and downloading...".
Definition no_video : string := "❌ Could not download the video.".
Definition no_description : string := "❌ Could not fetch a description from the link.".
Definition refining : string := "✨ Refining, converting, and analyzing audio...".
Definition refine_error : string := "❌ An error occurred while refining the recipe.".
Definition unexpected (e : string) : string := "An unexpected error occurred: " +:+ e.

End Reply.

(** Lines 238-246: the optional audio stages, from [metric_recipe] to
    [final_recipe_text]. *)
Definition with_audio_notes (w : World) (audio : Audio.t) (metric_recipe : string)
  : M string :=
  let* audio_download_status := download_audio w audio in
  if decide (audio_download_status = success) then
    let* audio_notes := analyze_audio_with_gemini w (Audio.filepath audio) in
    match audio_notes with
    | Some notes =>
        if Str.truthy notes then
          let* combined_recipe := combine_recipe_and_audio w metric_recipe notes in
          match combined_recipe with
          | Some combined => if Str.truthy combined then ret combined else ret metric_recipe
          | None => ret metric_recipe
          end
        else ret metric_recipe
    | None => ret metric_recipe
    end
  else ret metric_recipe.

(** Lines 236-246: from the refined recipe to [final_recipe_text]. *)
Definition final_recipe_text (w : World) (audio : Audio.t) (refined_recipe : string)
  : M string :=
  let* converted := convert_recipe_to_metric w refined_recipe in
  let metric_recipe := py_or converted refined_recipe in
  with_audio_notes w audio metric_recipe.

(** Lines 248-280: "# 3. Send the final results". *)
Definition send_final_results (w : World) (message : Message) (video : Video.t)
    (final_recipe_text : string) : M unit :=
  let* present := path_exists (Video.filepath video) in
  if Str.truthy (Video.filepath video) && present then
    let final_caption := Caption.final_caption final_recipe_text in
    open_rb ;;
    try_except
      (bot_send_video w (chat_id message) final_caption (Some "MarkdownV2")
         (Video.width video) (Video.height video) (Video.duration video))
      (fun _ =>
         seek 0 ;;
         bot_send_video w (chat_id message) final_recipe_text None
           (Video.width video) (Video.height video) (Video.duration video))
  else ret tt.

(** Lines 217-246, "# 1. Download video and get info" and "# 2. Refine,
    convert, and analyze": [None] when the source returns early, otherwise
    the video with its metadata and [final_recipe_text]. *)
Definition prepare_recipe (w : World) (message : Message) (video : Video.t)
    (audio : Audio.t) : M (option (Video.t * string)) :=
  bot_reply_to w message Reply.fetching ;;
  let* (download_status, video) := download_video w video in
  if decide (download_status = failed) then
    bot_reply_to w message Reply.no_video ;; ret None
  else if negb (truthy (Video.description video)) then
    bot_reply_to w message Reply.no_description ;; ret None
  else
    bot_reply_to w message Reply.refining ;;
    let* refined_recipe :=
      refine_with_gemini w (default "" (Video.description video)) in
    if negb (truthy refined_recipe) then
      bot_reply_to w message Reply.refine_error ;; ret None
    else
      let* final := final_recipe_text w audio (default "" refined_recipe) in
      ret (Some (video, final)).

(** Lines 217-280: the body of the [try] statement. *)
Definition process_body (w : World) (message : Message) (video : Video.t)
    (audio : Audio.t) : M unit :=
  let* prepared := prepare_recipe w message video audio in
  match prepared with
  | None => ret tt
  | Some (video, final) => send_final_results w message video final
  end.

(** Lines 283-288: the [finally] block. *)
Definition cleanup (w : World) (video : Video.t) (audio : Audio.t) : M unit :=
  (let* present := path_exists (Video.filepath video) in
   if Str.truthy (Video.filepath video) && present
   then remove w (Video.filepath video) else ret tt) ;;
  (let* present := path_exists (Audio.filepath audio) in
   if Str.truthy (Audio.filepath audio) && present
   then remove w (Audio.filepath audio) else ret tt).

Definition process_url (w : World) (url : string) (message : Message) : M unit :=
  let* tv := now w in
  let video := Video.init url (chat_id message) tv in
  let* ta := now w in
  let audio := Audio.init url (chat_id message) ta in
  try_finally
    (try_except
       (process_body w message video audio)
       (fun e => bot_reply_to w message (Reply.unexpected e)))
    (cleanup w video audio).

(** ** Reading a trace *)

(** The operations of the language model that were invoked. *)
Definition lm_calls (tr : list event) : list lm_op :=
  omap (fun ev => match ev with EvLM op => Some op | _ => None end) tr.

(** The texts of the replies the transport accepted. *)
Definition replies_received (tr : list event) : list string :=
  omap (fun ev => match ev with EvReply t true => Some t | _ => None end) tr.

(** The deliveries of the video that were attempted, with the caption, the
    parse mode and the position of the file at the call. *)
Definition send_attempts (tr : list event) : list (string * option string * nat) :=
  omap (fun ev => match ev with
                  | EvSendVideo c pm pos _ _ _ _ => Some (c, pm, pos)
                  | _ => None
                  end) tr.

(** The captions of the deliveries the transport accepted. *)
Definition captions_delivered (tr : list event) : list string :=
  omap (fun ev => match ev with
                  | EvSendVideo c _ _ _ _ _ true => Some c
                  | _ => None
                  end) tr.

(** A reply that reports a failure: one of the three fixed messages or the
    report of an unexpected error. *)
Definition is_failure_reply (t : string) : bool :=
  bool_decide (t = Reply.no_video) || bool_decide (t = Reply.no_description)
  || bool_decide (t = Reply.refine_error)
  || String.prefix (Reply.unexpected "") t.

Definition failure_replies_received (tr : list event) : list string :=
  filter (fun t => is_failure_reply t = true) (replies_received tr).

(** The transport accepts every reply to the message. *)
Definition replies_accepted (w : World) (m : Message) : Prop :=
  forall t, reply_to w m t = None.

(** Every call to the language model fails. *)
Definition lm_unreachable (w : World) : Prop :=
  (forall prompt, generate_content w prompt = None) /\
  (forall prompt path, generate_content_with_file w prompt path = None).

(** The video download for [url] succeeds, whatever the target and the
    storage, and reports the description [d]. *)
Definition video_available (w : World) (url d : string) : Prop :=
  forall path fmt fs,
    exists info fs',
      extract_info w url path fmt fs = (Some info, fs') /\
      info_description info = Some d.

(** The audio download from storage [fs] fails: the tool raises, or it
    returns and leaves no file at the target. *)
Definition audio_fetch_fails (w : World) (audio : Audio.t) (fs : gset string) : Prop :=
  let r := download w (Audio.url audio) (Audio.filepath audio) fs in
  r.1 = None \/ Audio.filepath audio ∉ r.2.

Definition initial_state (fs : gset string) : State := mkState fs 0 0 [].

(** No removal of the [finally] block of the run [process_url w url m]
    from state [s] raises. *)
Definition removals_succeed (w : World) (m : Message) (s : State) : Prop :=
  remove_error w (Video.path_of (chat_id m) (time_time w (st_reads s))) = None /\
  remove_error w (Audio.path_of (chat_id m) (time_time w (S (st_reads s)))) = None.

(** The state in which the [try] statement of [process_url] starts. *)
Definition entered (s : State) : State :=
  mkState (st_fs s) (S (S (st_reads s))) (st_pos s) (st_trace s).

(** What one run does when the description is there and the language
    model is not: two status replies, one refine call, the reply that
    refining failed. *)
Definition refusal : list event :=
  [EvReply Reply.fetching true; EvReply Reply.refining true;
   EvLM RefineToRecipe; EvReply Reply.refine_error true].

(** The two deliveries of a run whose formatted caption is rejected. *)
Definition first_attempt (video : Video.t) (final : string) : event :=
  EvSendVideo (Caption.final_caption final) (Some "MarkdownV2") 0
    (Video.width video) (Video.height video) (Video.duration video) false.

Definition second_attempt (video : Video.t) (final : string) (ok : bool) : event :=
  EvSendVideo final None 0
    (Video.width video) (Video.height video) (Video.duration video) ok.

(** ** Worlds that differ in one collaborator *)

Definition with_api_key (k : option string) (w : World) : World :=
  mkWorld k (time_time w) (extract_info w) (download w) (generate_content w)
    (upload_file w) (get_file w) (generate_content_with_file w) (reply_to w)
    (send_video w) (remove_error w).

Definition with_extract_info
    (f : string -> string -> string -> gset string -> option VideoInfo * gset string)
    (w : World) : World :=
  mkWorld (GOOGLE_API_KEY w) (time_time w) f (download w) (generate_content w)
    (upload_file w) (get_file w) (generate_content_with_file w) (reply_to w)
    (send_video w) (remove_error w).

Definition with_download
    (f : string -> string -> gset string -> option Z * gset string)
    (w : World) : World :=
  mkWorld (GOOGLE_API_KEY w) (time_time w) (extract_info w) f (generate_content w)
    (upload_file w) (get_file w) (generate_content_with_file w) (reply_to w)
    (send_video w) (remove_error w).

Definition with_generate_content (f : string -> option string) (w : World) : World :=
  mkWorld (GOOGLE_API_KEY w) (time_time w) (extract_info w) (download w) f
    (upload_file w) (get_file w) (generate_content_with_file w) (reply_to w)
    (send_video w) (remove_error w).

Definition with_generate_content_with_file (f : string -> string -> option string)
    (w : World) : World :=
  mkWorld (GOOGLE_API_KEY w) (time_time w) (extract_info w) (download w)
    (generate_content w) (upload_file w) (get_file w) f (reply_to w)
    (send_video w) (remove_error w).

Definition with_send_video (f : Z -> string -> option string -> option string * nat)
    (w : World) : World :=
  mkWorld (GOOGLE_API_KEY w) (time_time w) (extract_info w) (download w)
    (generate_content w) (upload_file w) (get_file w)
    (generate_content_with_file w) (reply_to w) f (remove_error w).

(** ** Sample worlds *)

Module Sample.

Definition info : VideoInfo :=
  mkVideoInfo (Some 720%Z) (Some 1280%Z) (Some 42%Z) (Some "2 cups flour, 1 lb butter").

(** Downloads work and write their target; the language model answers
    every prompt; the transport accepts everything. *)
Definition friendly : World :=
  mkWorld (Some "key") (fun n => (1700000000 + Z.of_nat n)%Z)
    (fun _ path _ fs => (Some info, {[path]} ∪ fs))
    (fun _ path fs => (Some 0%Z, {[path]} ∪ fs))
    (fun prompt => Some ("LM:" +:+ Str.take 20 prompt))
    (fun _ => ObsState PROCESSING)
    (fun _ => [ObsState PROCESSING; ObsState ACTIVE])
    (fun _ _ => Some "stir well")
    (fun _ _ => None)
    (fun _ _ _ => (None, 100))
    (fun _ => None).

Definition message : Message := mkMessage 7%Z "https://example.org/reel/1".
Definition url : string := "https://example.org/reel/1".
Definition audio : Audio.t := Audio.init url 7%Z 1700000001%Z.

(** The process has no [GOOGLE_API_KEY]. *)
Definition no_key : World := with_api_key None friendly.

(** Every call to the language model raises. *)
Definition lm_down : World :=
  with_generate_content (fun _ => None)
    (with_generate_content_with_file (fun _ _ => None) friendly).

(** The audio download raises and writes nothing. *)
Definition no_audio : World :=
  with_download (fun _ _ fs => (None, fs)) friendly.

(** The language model answers the conversion and the transcription with
    the empty string. *)
Definition empty_answers : World :=
  with_generate_content (fun _ => Some "")
    (with_generate_content_with_file (fun _ _ => Some "") friendly).

(** The transport rejects every delivery of the video, having read 100
    bytes of the file. *)
Definition sends_rejected : World :=
  with_send_video (fun _ _ _ => (Some "Bad Request", 100)) friendly.

(** The transport rejects the formatted caption and accepts the plain
    one. *)
Definition markup_rejected : World :=
  with_send_video
    (fun _ _ parse_mode =>
       match parse_mode with
       | Some _ => (Some "Bad Request: can't parse entities", 100)
       | None => (None, 100)
       end) friendly.

(** The video download raises. *)
Definition no_video : World :=
  with_extract_info (fun _ _ _ fs => (None, fs)) friendly.

(** The audio download raises after it has written its target. *)
Definition audio_tool_raises : World :=
  with_download (fun _ path fs => (None, {[path]} ∪ fs)) friendly.

End Sample.



(** ** The message handlers and the entry point *)

(** [send_welcome] *)
Definition send_welcome (w : World) (message : Message) : M unit :=
  bot_reply_to w message
    "Welcome! Send me a link to an Instagram video, and I'll extract the recipe.".

Definition no_url_reply : string := "Please send a message with a valid URL.".

(** [handle_message]; [find_urls] is [extractor.find_urls]. *)
Definition handle_message (find_urls : string -> list string) (w : World)
    (message : Message) : M unit :=
  match find_urls (text message) with
  | [] => bot_reply_to w message no_url_reply
  | url :: _ => process_url w url message
  end.

(** How [main] ends its start-up: [sys.exit(code)], or the polling loop of
    the bot. *)
Inductive startup : Type :=
| Exit (code : Z)
| Polling.

(** [main]; [which] is [shutil.which] and [getenv] is [os.getenv]. *)
Definition main (which getenv : string -> option string) : startup :=
  if negb (truthy (which "yt-dlp")) || negb (truthy (which "ffmpeg")) then Exit 1
  else if negb (truthy (getenv "TELEGRAM_BOT_TOKEN"))
          || negb (truthy (getenv "GOOGLE_API_KEY")) then Exit 1
  else Polling.

(** [c not in s] *)
Fixpoint char_free (c : Ascii.ascii) (s : string) : Prop :=
  match s with
  | EmptyString => True
  | String d s' => d <> c /\ char_free c s'
  end.

(** The order in which the operations of the language model can be
    invoked. *)
Definition lm_order : list lm_op :=
  [RefineToRecipe; ConvertToMetric; TranscribeAudioNotes; MergeRecipeAndNotes].

(** The one delivery of a run whose formatted caption is accepted. *)
Definition accepted_attempt (video : Video.t) (final : string) : event :=
  EvSendVideo (Caption.final_caption final) (Some "MarkdownV2") 0
    (Video.width video) (Video.height video) (Video.duration video) true.

(** ** More sample worlds *)

Definition with_reply_to (f : Message -> string -> option string) (w : World) : World :=
  mkWorld (GOOGLE_API_KEY w) (time_time w) (extract_info w) (download w)
    (generate_content w) (upload_file w) (get_file w)
    (generate_content_with_file w) f (send_video w) (remove_error w).

Definition with_get_file (f : string -> list file_obs) (w : World) : World :=
  mkWorld (GOOGLE_API_KEY w) (time_time w) (extract_info w) (download w)
    (generate_content w) (upload_file w) f
    (generate_content_with_file w) (reply_to w) (send_video w) (remove_error w).


Module Sample2.


(** The language model refines and converts with different answers; the
    audio download raises and writes nothing. *)
Definition metric_without_audio : World :=
  with_generate_content
    (fun prompt =>
       if String.prefix "You are a helpful assistant that specializes in converting"
            prompt
       then Some "Shortbread: 250 g flour, 450 g butter"
       else Some "Shortbread: 2 cups flour, 1 lb butter")
    Sample.no_audio.

(** The conversion gives the empty string; the transcription and the
    merge succeed. *)
Definition empty_conversion_then_merge : World :=
  with_generate_content
    (fun prompt =>
       if String.prefix "You are a helpful assistant that specializes in converting"
            prompt
       then Some ""
       else if String.prefix "You are a master recipe editor." prompt
       then Some "MERGED"
       else Some "Shortbread: 2 cups flour, 1 lb butter")
    Sample.friendly.

(** The file service answers [PROCESSING] for ever. *)
Definition stuck_upload : World := with_get_file (fun _ => []) Sample.friendly.

(** The transport refuses every reply. *)
Definition transport_down : World :=
  with_reply_to (fun _ _ => Some "network is unreachable") Sample.friendly.

(** The provider reports no description. *)
Definition no_description : World :=
  with_extract_info
    (fun _ path _ fs =>
       (Some (mkVideoInfo (Some 720%Z) (Some 1280%Z) (Some 42%Z) None), {[path]} ∪ fs))
    Sample.friendly.

(** The video download reports success and leaves no file. *)
Definition video_not_written : World :=
  with_extract_info (fun _ _ _ fs => (Some Sample.info, fs)) Sample.friendly.

(** The merge call raises. *)
Definition merge_down : World :=
  with_generate_content
    (fun prompt =>
       if String.prefix "You are a master recipe editor." prompt then None
       else Some ("LM:" +:+ Str.take 20 prompt))
    Sample.friendly.

(** [shutil.which] and [os.getenv] of a machine that has everything. *)
Definition which (tool : string) : option string := Some ("/usr/bin/" +:+ tool).
Definition getenv (name : string) : option string :=
  if String.eqb name "GOOGLE_API_KEY" then Some "key" else Some "token".

(** [extractor.find_urls] of a message that is one URL, or nothing. *)
Definition find_urls (text : string) : list string :=
  if String.prefix "https://" text then [text] else [].

Definition greeting : Message := mkMessage 7%Z "hello".

End Sample2.
(** * Verified properties *)

(** ** Strings *)

Lemma str_app_cons (c : Ascii.ascii) (s1 s2 : string) :
  String c s1 +:+ s2 = String c (s1 +:+ s2).
Proof. reflexivity. Qed.

Lemma str_length_app (s1 s2 : string) :
  String.length (s1 +:+ s2) = String.length s1 + String.length s2.
Proof.
  induction s1 as [|c s1 IH]; [reflexivity |].
  rewrite str_app_cons; simpl; now rewrite IH.
Qed.

Lemma str_length_take (n : nat) (s : string) :
  String.length (Str.take n s) = Nat.min n (String.length s).
Proof.
  revert s; induction n as [|n IH]; intros [|c s]; simpl; auto.
Qed.

Lemma str_length_repeat (s : string) (n : nat) :
  String.length (Str.repeat s n) = n * String.length s.
Proof.
  induction n as [|n IH]; simpl; [reflexivity |].
  now rewrite str_length_app, IH.
Qed.

Lemma str_truthy_true (s : string) : Str.truthy s = true <-> s <> "".
Proof. destruct s; simpl; split; congruence. Qed.

Lemma str_app_assoc (s1 s2 s3 : string) :
  (s1 +:+ s2) +:+ s3 = s1 +:+ (s2 +:+ s3).
Proof.
  induction s1 as [|c s1 IH]; [reflexivity |].
  rewrite !str_app_cons; now rewrite IH.
Qed.

(** ** The caption *)

Section CaptionFacts.

Import Caption.

Lemma truncate_at_value : truncate_at = 1002.
Proof. reflexivity. Qed.

Lemma length_truncated_suffix : String.length truncated_suffix = 15.
Proof. reflexivity. Qed.

Lemma length_wrap (t : string) : String.length (wrap t) = String.length t + 6.
Proof. unfold wrap. rewrite !str_length_app. simpl. lia. Qed.

Lemma caption_text_long (t : string) :
  max_len < String.length t ->
  caption_text t = Str.take 1002 t +:+ truncated_suffix.
Proof.
  intros Hlong. unfold caption_text.
  destruct (Nat.ltb_spec max_len (String.length t)) as [_|Hle]; [reflexivity | lia].
Qed.

Lemma caption_text_short (t : string) :
  String.length t <= max_len -> caption_text t = t.
Proof.
  intros Hshort. unfold caption_text.
  destruct (Nat.ltb_spec max_len (String.length t)) as [Hlt|_]; [lia | reflexivity].
Qed.

Lemma truncated_suffix_ends_with_marker (front : string) :
  Str.ends_with truncation_marker (front +:+ truncated_suffix).
Proof.
  exists (front +:+ Str.LF). unfold truncated_suffix, truncation_marker.
  now rewrite str_app_assoc.
Qed.

(** The window the guard of line 254 misses: a text of 1019 to 1024 units
    is kept whole, and its wrapped caption is longer than the limit. *)
Lemma caption_guard_window (t : string) :
  max_len - 6 < String.length t <= max_len ->
  final_caption t = wrap t /\ max_len < String.length (final_caption t).
Proof.
  intros [Hlo Hhi]. unfold final_caption.
  rewrite (caption_text_short t Hhi), length_wrap.
  unfold max_len in *. split; [reflexivity | lia].
Qed.

End CaptionFacts.

(** C5. A recipe text strictly longer than the limit of 1024 units gets a
    caption of at most 1024 units, and the content between the wrapping
    markers ends with the truncation marker ["...(truncated)"]. *)
Theorem long_text_caption_fits_and_is_marked (t : string) :
  Caption.max_len < String.length t ->
  String.length (Caption.final_caption t) <= Caption.max_len /\
  exists inner,
    Caption.final_caption t = Caption.wrap inner /\
    Str.ends_with Caption.truncation_marker inner.
Proof.
  intros Hlong. unfold Caption.final_caption.
  rewrite (caption_text_long t Hlong). split.
  - rewrite length_wrap, str_length_app, str_length_take, length_truncated_suffix.
    unfold Caption.max_len in *. lia.
  - eexists; split; [reflexivity | apply truncated_suffix_ends_with_marker].
Qed.

Lemma long_text_caption_witness :
  Caption.max_len < String.length (Str.repeat "a" 1025) /\
  (String.length (Caption.final_caption (Str.repeat "a" 1025)) <= Caption.max_len /\
   exists inner,
     Caption.final_caption (Str.repeat "a" 1025) = Caption.wrap inner /\
     Str.ends_with Caption.truncation_marker inner).
Proof.
  assert (H : Caption.max_len < String.length (Str.repeat "a" 1025)).
  { rewrite str_length_repeat. unfold Caption.max_len. simpl. lia. }
  split; [exact H | exact (long_text_caption_fits_and_is_marked _ H)].
Defined.

(** C2. At a text of 1020 units the wrapped text has 1026 units, over the
    limit of 1024, yet line 254 compares the unwrapped length with the
    limit: the inner text is kept whole and the caption sent has 1026
    units. *)
Theorem wrapped_overflow_not_truncated :
  let t := Str.repeat "a" 1020 in
  Caption.max_len < String.length (Caption.wrap t) /\
  Caption.caption_text t = t /\
  String.length (Caption.final_caption t) = 1026.
Proof.
  intros t.
  assert (Hlen : String.length t = 1020).
  { unfold t. rewrite str_length_repeat. reflexivity. }
  assert (Hshort : String.length t <= Caption.max_len).
  { rewrite Hlen. unfold Caption.max_len. lia. }
  unfold Caption.final_caption.
  rewrite (caption_text_short t Hshort), length_wrap, Hlen.
  unfold Caption.max_len. repeat split; lia.
Qed.

(** ** The media fetcher *)

(** What [download_audio] returns, in terms of the answer of the tool. *)
Lemma download_audio_run (w : World) (audio : Audio.t) (s : State) :
  download_audio w audio s =
  (let r := download w (Audio.url audio) (Audio.filepath audio) (st_fs s) in
   (Val (match r.1 with
         | Some _ => if bool_decide (Audio.filepath audio ∈ r.2) then success else failed
         | None => failed
         end),
    mkState r.2 (st_reads s) (st_pos s) (st_trace s))).
Proof.
  unfold download_audio.
  destruct (download w (Audio.url audio) (Audio.filepath audio) (st_fs s)) as [[code|] fs'];
    reflexivity.
Qed.

(** C9, as the code has it.  [download_audio] reports success exactly when
    the download tool returned without raising and a file exists at the
    target path afterwards; the return code of the tool plays no part. *)
Theorem download_audio_success_iff (w : World) (audio : Audio.t) (s : State) :
  let r := download w (Audio.url audio) (Audio.filepath audio) (st_fs s) in
  exists st s',
    download_audio w audio s = (Val st, s') /\
    st_fs s' = r.2 /\
    (st = success <-> is_Some r.1 /\ Audio.filepath audio ∈ r.2).
Proof.
  intros r. rewrite download_audio_run. fold r.
  eexists _, _. split; [reflexivity |]. split; [reflexivity |].
  destruct r.1 as [code|].
  - case_bool_decide; split.
    + intros _. split; [by eexists | assumption].
    + reflexivity.
    + discriminate.
    + intros [_ Hin]. contradiction.
  - split; [discriminate | intros [[? Hsome] _]; discriminate].
Qed.

(** C9, counterexample.  The tool raises after it has written the target:
    the file exists afterwards and [download_audio] reports a failure. *)
Lemma download_audio_raise_counterexample :
  exists s',
    download_audio Sample.audio_tool_raises Sample.audio (initial_state ∅)
    = (Val failed, s') /\
    Audio.filepath Sample.audio ∈ st_fs s'.
Proof.
  eexists. split; [reflexivity |]. simpl.
  apply elem_of_union_l, elem_of_singleton. reflexivity.
Qed.

(** ** The language-model adapter *)

Section Adapter.

Variable w : World.

Lemma refine_missing_key (t : string) (s : State) :
  api_key_missing w = true ->
  refine_with_gemini w t s = (Val None, emit s (EvLM RefineToRecipe)).
Proof. intros H. unfold refine_with_gemini, bind, log. now rewrite H. Qed.

Lemma convert_missing_key (t : string) (s : State) :
  api_key_missing w = true ->
  convert_recipe_to_metric w t s
  = (Val (Some "API key not found, cannot convert to metric."),
     emit s (EvLM ConvertToMetric)).
Proof. intros H. unfold convert_recipe_to_metric, bind, log. now rewrite H. Qed.

Lemma analyze_missing_key (path : string) (s : State) :
  api_key_missing w = true ->
  analyze_audio_with_gemini w path s
  = (Val (Some "API key not found, cannot analyze audio."),
     emit s (EvLM TranscribeAudioNotes)).
Proof. intros H. unfold analyze_audio_with_gemini, bind, log. now rewrite H. Qed.

Lemma combine_missing_key (m n : string) (s : State) :
  api_key_missing w = true ->
  combine_recipe_and_audio w m n s
  = (Val (Some "API key not found, cannot combine recipe."),
     emit s (EvLM MergeRecipeAndNotes)).
Proof. intros H. unfold combine_recipe_and_audio, bind, log. now rewrite H. Qed.

(** With a credential, a remote call that raises gives [None] in the three
    operations that make one text call. *)
Lemma text_calls_remote_failure (t m n : string) (s : State) :
  api_key_missing w = false ->
  (forall prompt, generate_content w prompt = None) ->
  (refine_with_gemini w t s).1 = Val None /\
  (convert_recipe_to_metric w t s).1 = Val None /\
  (combine_recipe_and_audio w m n s).1 = Val None.
Proof.
  intros Hkey Hfail.
  unfold refine_with_gemini, convert_recipe_to_metric, combine_recipe_and_audio,
    bind, log, ret.
  rewrite Hkey, !Hfail. auto.
Qed.

End Adapter.

(** C3.  Without a credential [refine_with_gemini] returns [None], but the
    three other operations return a message string, which is neither
    [None] nor an exception. *)
Theorem missing_credential_results :
  let s := initial_state ∅ in
  (refine_with_gemini Sample.no_key "2 cups flour" s).1 = Val None /\
  (convert_recipe_to_metric Sample.no_key "2 cups flour" s).1
    = Val (Some "API key not found, cannot convert to metric.") /\
  (analyze_audio_with_gemini Sample.no_key (Audio.filepath Sample.audio) s).1
    = Val (Some "API key not found, cannot analyze audio.") /\
  (combine_recipe_and_audio Sample.no_key "2 cups flour" "stir well" s).1
    = Val (Some "API key not found, cannot combine recipe.").
Proof.
  intros s.
  rewrite refine_missing_key, convert_missing_key, analyze_missing_key,
    combine_missing_key by reflexivity.
  auto.
Qed.

(** ** Running the monad *)

Lemma bind_val {A B : Type} (m : M A) (f : A -> M B) (s s' : State) (a : A) :
  m s = (Val a, s') -> bind m f s = f a s'.
Proof. intros H. unfold bind. now rewrite H. Qed.

Lemma bind_exc {A B : Type} (m : M A) (f : A -> M B) (s s' : State) (e : string) :
  m s = (Exc e, s') -> bind m f s = (Exc e, s').
Proof. intros H. unfold bind. now rewrite H. Qed.

Lemma bind_hang {A B : Type} (m : M A) (f : A -> M B) (s s' : State) :
  m s = (Hang, s') -> bind m f s = (Hang, s').
Proof. intros H. unfold bind. now rewrite H. Qed.

Lemma reply_accepted (w : World) (m : Message) (t : string) (s : State) :
  reply_to w m t = None ->
  bot_reply_to w m t s = (Val tt, emit s (EvReply t true)).
Proof. intros H. unfold bot_reply_to. now rewrite H. Qed.

Lemma reply_rejected (w : World) (m : Message) (t e : string) (s : State) :
  reply_to w m t = Some e ->
  bot_reply_to w m t s = (Exc e, emit s (EvReply t false)).
Proof. intros H. unfold bot_reply_to. now rewrite H. Qed.

(** ** The janitor *)

Lemma video_path_truthy (c t : Z) : Str.truthy (Video.path_of c t) = true.
Proof. reflexivity. Qed.

Lemma audio_path_truthy (c t : Z) : Str.truthy (Audio.path_of c t) = true.
Proof. reflexivity. Qed.

(** The [finally] block leaves the trace alone.  It returns unless a
    removal raises, and then the exception is that of the removal.  The
    path of the video is gone once its removal does not raise; so is the
    path of the audio once neither removal raises. *)
Lemma cleanup_run (w : World) (video : Video.t) (audio : Audio.t) (s : State) :
  Str.truthy (Video.filepath video) = true ->
  Str.truthy (Audio.filepath audio) = true ->
  exists oc s',
    cleanup w video audio s = (oc, s') /\
    st_trace s' = st_trace s /\
    (oc = Val tt \/
     exists e, oc = Exc e /\
               (remove_error w (Video.filepath video) = Some e \/
                remove_error w (Audio.filepath audio) = Some e)) /\
    (remove_error w (Video.filepath video) = None ->
     Video.filepath video ∉ st_fs s') /\
    (remove_error w (Video.filepath video) = None ->
     remove_error w (Audio.filepath audio) = None ->
     oc = Val tt /\ Audio.filepath audio ∉ st_fs s').
Proof.
  intros Hv Ha. unfold cleanup, bind, path_exists, remove, ret. rewrite Hv, Ha.
  simpl.
  destruct (remove_error w (Video.filepath video)) as [ev|] eqn:Hrv;
    destruct (remove_error w (Audio.filepath audio)) as [ea|] eqn:Hra;
    repeat case_bool_decide; simpl in *; rewrite ?Hra; simpl;
    (eexists _, _; split; [reflexivity |]; split; [reflexivity |]; simpl;
     rewrite ?elem_of_difference, ?elem_of_singleton in *;
     repeat split; eauto 6; try discriminate; try tauto).
Qed.





(** ** The orchestrator *)

Lemma process_url_unfold (w : World) (url : string) (m : Message) (s : State) :
  process_url w url m s =
  let video := Video.init url (chat_id m) (time_time w (st_reads s)) in
  let audio := Audio.init url (chat_id m) (time_time w (S (st_reads s))) in
  try_finally
    (try_except (process_body w m video audio)
       (fun e => bot_reply_to w m (Reply.unexpected e)))
    (cleanup w video audio) (entered s).
Proof. reflexivity. Qed.

(** The [finally] block keeps the trace of the block it protects, and its
    result too unless a removal raises. *)
Lemma try_finally_cleanup_trace {A : Type} (body : M A) (w : World) (video : Video.t)
    (audio : Audio.t) (s s1 : State) (r : outcome A) :
  Str.truthy (Video.filepath video) = true ->
  Str.truthy (Audio.filepath audio) = true ->
  body s = (r, s1) ->
  exists o s2,
    try_finally body (cleanup w video audio) s = (o, s2) /\
    st_trace s2 = st_trace s1 /\
    (o = r \/
     exists e, o = Exc e /\
               (remove_error w (Video.filepath video) = Some e \/
                remove_error w (Audio.filepath audio) = Some e)) /\
    (remove_error w (Video.filepath video) = None ->
     remove_error w (Audio.filepath audio) = None -> o = r).
Proof.
  intros Hv Ha Hbody. unfold try_finally. rewrite Hbody.
  destruct (cleanup_run w video audio s1 Hv Ha)
    as (oc & s2 & Hc & Htr & Hoc & _ & Hok).
  rewrite Hc.
  destruct r as [a|e|].
  - destruct Hoc as [-> | (e & -> & He)].
    + eexists _, _. split; [reflexivity |]. auto.
    + eexists _, _. split; [reflexivity |]. split; [exact Htr |].
      split; [right; eauto |]. intros H1 H2. now destruct (Hok H1 H2).
  - destruct Hoc as [-> | (e' & -> & He)].
    + eexists _, _. split; [reflexivity |]. auto.
    + eexists _, _. split; [reflexivity |]. split; [exact Htr |].
      split; [right; eauto |]. intros H1 H2. now destruct (Hok H1 H2).
  - eexists _, _. split; [reflexivity |]. auto.
Qed.

(** From the protected block to the whole of [process_url]. *)
Lemma process_url_trace (w : World) (url : string) (m : Message) (s s1 : State)
    (r : outcome unit) :
  try_except
    (process_body w m (Video.init url (chat_id m) (time_time w (st_reads s)))
       (Audio.init url (chat_id m) (time_time w (S (st_reads s)))))
    (fun e => bot_reply_to w m (Reply.unexpected e)) (entered s) = (r, s1) ->
  exists o s2,
    process_url w url m s = (o, s2) /\
    st_trace s2 = st_trace s1 /\
    (o = r \/
     exists e, o = Exc e /\
               (remove_error w (Video.path_of (chat_id m) (time_time w (st_reads s)))
                = Some e \/
                remove_error w (Audio.path_of (chat_id m)
                                  (time_time w (S (st_reads s)))) = Some e)) /\
    (removals_succeed w m s -> o = r).
Proof.
  intros Hbody. rewrite process_url_unfold.
  destruct (try_finally_cleanup_trace _ w
              (Video.init url (chat_id m) (time_time w (st_reads s)))
              (Audio.init url (chat_id m) (time_time w (S (st_reads s))))
              _ _ _ eq_refl eq_refl Hbody)
    as (o & s2 & Hrun & Htr & Hor & Hok).
  exists o, s2. split; [exact Hrun |]. split; [exact Htr |].
  split; [exact Hor |]. intros [H1 H2]. exact (Hok H1 H2).
Qed.

Ltac unfold_run :=
  unfold process_body, prepare_recipe, send_final_results,
    final_recipe_text, with_audio_notes, try_except, bind, ret,
    raise, hang, log, bot_reply_to, download_video, refine_with_gemini,
    convert_recipe_to_metric, combine_recipe_and_audio, entered in *.

(** C7.  When the video download fails, the run invokes no operation of
    the language model, and the user, whose transport accepts replies,
    receives exactly one failure reply. *)
Theorem video_download_failure_run (w : World) (url : string) (m : Message)
    (s s' : State) (o : outcome unit) (fs1 : gset string) :
  extract_info w url (Video.path_of (chat_id m) (time_time w (st_reads s))) "mp4"
    (st_fs s) = (None, fs1) ->
  replies_accepted w m ->
  process_url w url m s = (o, s') ->
  exists tr,
    st_trace s' = st_trace s ++ tr /\
    lm_calls tr = [] /\
    failure_replies_received tr = [Reply.no_video].
Proof.
  intros Hdl Hok Hrun.
  edestruct (process_url_trace w url m s) as (o2 & s2 & Hrun2 & Htr & Hor & Hsucc).
  { unfold_run. simpl. rewrite (Hok Reply.fetching). simpl. rewrite Hdl. simpl.
    rewrite (Hok Reply.no_video). simpl. reflexivity. }
  rewrite Hrun in Hrun2. inversion Hrun2; subst.
  exists [EvReply Reply.fetching true; EvReply Reply.no_video true].
  rewrite Htr. simpl. rewrite <- app_assoc. split; [reflexivity |].
  split; reflexivity.
Qed.

Lemma video_download_failure_witness :
  exists o s' tr,
    process_url Sample.no_video Sample.url Sample.message (initial_state ∅) = (o, s') /\
    st_trace s' = [] ++ tr /\
    lm_calls tr = [] /\
    failure_replies_received tr = [Reply.no_video].
Proof.
  eexists _, _.
  edestruct (video_download_failure_run Sample.no_video Sample.url Sample.message
               (initial_state ∅)) as (tr & H1 & H2 & H3);
    [reflexivity | intros t; reflexivity | vm_compute; reflexivity |].
  exists tr. split; [vm_compute; reflexivity |]. exact (conj H1 (conj H2 H3)).
Defined.

Lemma refusal_run (w : World) (url d : string) (m : Message) (s : State) :
  video_available w url d -> d <> "" ->
  lm_unreachable w ->
  replies_accepted w m ->
  exists o s',
    process_url w url m s = (o, s') /\
    st_trace s' = st_trace s ++ refusal /\
    (removals_succeed w m s -> o = Val tt).
Proof.
  intros Hv Hd [Hlm _] Hok.
  destruct (Hv (Video.path_of (chat_id m) (time_time w (st_reads s))) "mp4" (st_fs s))
    as (info & fs1 & Hdl & Hdesc).
  apply str_truthy_true in Hd.
  edestruct (process_url_trace w url m s) as (o2 & s2 & Hrun2 & Htr & Hor & Hsucc).
  { unfold_run. simpl. rewrite (Hok Reply.fetching). simpl. rewrite Hdl. simpl.
    rewrite Hdesc. simpl. rewrite Hd. simpl. rewrite (Hok Reply.refining). simpl.
    rewrite Hlm. destruct (api_key_missing w); simpl;
      rewrite (Hok Reply.refine_error); simpl; reflexivity. }
  exists o2, s2. split; [exact Hrun2 |]. split; [| exact Hsucc].
  rewrite Htr. destruct (api_key_missing w); simpl; unfold emit; simpl;
    rewrite <- !app_assoc; reflexivity.
Qed.

(** C1, as the code has it.  When the video download succeeds with a
    non-empty description and every call to the language model fails, two
    runs on the URL both end with the reply that refining failed; no
    delivery of the video is attempted, so no recipe text, refined or not,
    reaches the user. *)
Theorem failing_lm_two_runs (w : World) (url d : string) (m : Message)
    (s s1 s2 : State) (o1 o2 : outcome unit) :
  video_available w url d -> d <> "" ->
  lm_unreachable w ->
  replies_accepted w m ->
  process_url w url m s = (o1, s1) ->
  process_url w url m s1 = (o2, s2) ->
  ((removals_succeed w m s -> o1 = Val tt) /\ st_trace s1 = st_trace s ++ refusal) /\
  ((removals_succeed w m s1 -> o2 = Val tt) /\ st_trace s2 = st_trace s1 ++ refusal) /\
  send_attempts refusal = [] /\
  replies_received refusal = [Reply.fetching; Reply.refining; Reply.refine_error].
Proof.
  intros Hv Hd Hlm Hok Hrun1 Hrun2.
  destruct (refusal_run w url d m s Hv Hd Hlm Hok) as (p1 & t1 & E1 & T1 & O1).
  destruct (refusal_run w url d m s1 Hv Hd Hlm Hok) as (p2 & t2 & E2 & T2 & O2).
  rewrite Hrun1 in E1. rewrite Hrun2 in E2.
  inversion E1; inversion E2; subst. repeat split; auto.
Qed.

Lemma failing_lm_two_runs_witness :
  exists o1 s1 o2 s2,
    process_url Sample.lm_down Sample.url Sample.message (initial_state ∅) = (o1, s1) /\
    process_url Sample.lm_down Sample.url Sample.message s1 = (o2, s2) /\
    ((removals_succeed Sample.lm_down Sample.message (initial_state ∅) -> o1 = Val tt)
     /\ st_trace s1 = [] ++ refusal) /\
    ((removals_succeed Sample.lm_down Sample.message s1 -> o2 = Val tt)
     /\ st_trace s2 = st_trace s1 ++ refusal) /\
    send_attempts refusal = [] /\
    replies_received refusal = [Reply.fetching; Reply.refining; Reply.refine_error].
Proof.
  eexists _, _, _, _.
  split; [vm_compute; reflexivity |]. split; [vm_compute; reflexivity |].
  eapply (failing_lm_two_runs Sample.lm_down Sample.url "2 cups flour, 1 lb butter"
            Sample.message (initial_state ∅)).
  - intros path fmt fs. eexists _, _. split; reflexivity.
  - discriminate.
  - split; intros; reflexivity.
  - intros t. reflexivity.
  - vm_compute; reflexivity.
  - vm_compute; reflexivity.
Defined.

(** C1, counterexample.  The download succeeds with the description
    ["2 cups flour, 1 lb butter"] and every call to the language model
    fails: in two runs in a row no caption is delivered, the description
    least of all; the user gets the refine failure twice. *)
Lemma failing_lm_description_not_delivered :
  let run1 := process_url Sample.lm_down Sample.url Sample.message (initial_state ∅) in
  let run2 := process_url Sample.lm_down Sample.url Sample.message run1.2 in
  lm_unreachable Sample.lm_down /\
  video_available Sample.lm_down Sample.url "2 cups flour, 1 lb butter" /\
  captions_delivered (st_trace run1.2) = [] /\
  captions_delivered (st_trace run2.2) = [] /\
  replies_received (st_trace run2.2)
  = [Reply.fetching; Reply.refining; Reply.refine_error;
     Reply.fetching; Reply.refining; Reply.refine_error].
Proof.
  intros run1 run2. subst run1 run2. split; [split; intros; reflexivity |].
  split; [intros path fmt fs; eexists _, _; split; reflexivity |].
  vm_compute. auto.
Qed.

(** ** The degradable stages *)

Lemma refine_run (w : World) (t : string) (s : State) :
  refine_with_gemini w t s =
  (Val (if api_key_missing w then None else generate_content w (Prompt.refine t)),
   emit s (EvLM RefineToRecipe)).
Proof. unfold refine_with_gemini, bind, log, ret. now destruct (api_key_missing w). Qed.

Lemma convert_run (w : World) (t : string) (s : State) :
  convert_recipe_to_metric w t s =
  (Val (if api_key_missing w
        then Some "API key not found, cannot convert to metric."
        else generate_content w (Prompt.convert t)),
   emit s (EvLM ConvertToMetric)).
Proof. unfold convert_recipe_to_metric, bind, log, ret. now destruct (api_key_missing w). Qed.

Lemma combine_run (w : World) (metric notes : string) (s : State) :
  combine_recipe_and_audio w metric notes s =
  (Val (if api_key_missing w
        then Some "API key not found, cannot combine recipe."
        else generate_content w (Prompt.combine metric notes)),
   emit s (EvLM MergeRecipeAndNotes)).
Proof. unfold combine_recipe_and_audio, bind, log, ret. now destruct (api_key_missing w). Qed.

(** [analyze_audio_with_gemini] puts one event on the trace, however it
    ends. *)
Lemma analyze_trace (w : World) (path : string) (s s' : State) (o : outcome (option string)) :
  analyze_audio_with_gemini w path s = (o, s') ->
  s' = emit s (EvLM TranscribeAudioNotes).
Proof.
  unfold analyze_audio_with_gemini, bind, log, ret, hang. intros H.
  repeat case_match; congruence.
Qed.

Lemma py_or_truthy (v : option string) (d : string) :
  d <> "" -> py_or v d <> "".
Proof.
  intros Hd. unfold py_or. destruct v as [t|]; [|exact Hd].
  destruct (Str.truthy t) eqn:Ht; [now apply str_truthy_true | exact Hd].
Qed.

Lemma py_or_falsy (v : option string) (d : string) :
  truthy v = false -> py_or v d = d.
Proof. unfold py_or, truthy. destruct v as [t|]; [intros -> |]; reflexivity. Qed.

(** When the audio download fails the optional stages hand back the
    recipe they were given. *)
Lemma with_audio_notes_fetch_failed (w : World) (audio : Audio.t) (metric : string)
    (s : State) :
  audio_fetch_fails w audio (st_fs s) ->
  exists s',
    with_audio_notes w audio metric s = (Val metric, s') /\
    st_trace s' = st_trace s /\
    st_fs s' = (download w (Audio.url audio) (Audio.filepath audio) (st_fs s)).2.
Proof.
  intros Hfail. unfold with_audio_notes, bind. rewrite download_audio_run.
  unfold audio_fetch_fails in Hfail. simpl in Hfail.
  destruct (download w (Audio.url audio) (Audio.filepath audio) (st_fs s)) as [r fs'].
  simpl in *. destruct Hfail as [-> | Hnot].
  - simpl. eexists; repeat split; reflexivity.
  - destruct r; [rewrite bool_decide_eq_false_2 by exact Hnot |];
      simpl; eexists; repeat split; reflexivity.
Qed.

(** Lines 217-246 when the description is there, the refine call gives a
    recipe and the audio download fails: they reach the delivery with the
    conversion result, or the refined recipe if the conversion gave
    nothing, after two replies and two calls to the language model. *)
Lemma prepare_recipe_audio_failed (w : World) (m : Message) (video : Video.t)
    (audio : Audio.t) (s : State) (info : VideoInfo) (fs1 : gset string)
    (d refined : string) :
  replies_accepted w m ->
  extract_info w (Video.url video) (Video.filepath video) (Video.format video) (st_fs s)
    = (Some info, fs1) ->
  info_description info = Some d -> d <> "" ->
  api_key_missing w = false ->
  generate_content w (Prompt.refine d) = Some refined -> refined <> "" ->
  audio_fetch_fails w audio fs1 ->
  exists video' s',
    prepare_recipe w m video audio s
    = (Val (Some (video',
                  py_or (generate_content w (Prompt.convert refined)) refined)), s') /\
    Video.filepath video' = Video.filepath video /\
    st_fs s' = (download w (Audio.url audio) (Audio.filepath audio) fs1).2 /\
    st_trace s' = st_trace s ++ [EvReply Reply.fetching true; EvReply Reply.refining true;
                                 EvLM RefineToRecipe; EvLM ConvertToMetric].
Proof.
  intros Hok Hdl Hdesc Hd Hkey Href Hr Haudio.
  pose proof (proj2 (str_truthy_true d) Hd) as Hd'.
  pose proof (proj2 (str_truthy_true refined) Hr) as Hr'.
  unfold prepare_recipe, bind at 1.
  rewrite (reply_accepted _ _ _ _ (Hok _)).
  unfold bind at 1, download_video. simpl. rewrite Hdl. simpl.
  rewrite Hdesc. simpl. rewrite Hd'. simpl.
  unfold bind at 1. rewrite (reply_accepted _ _ _ _ (Hok _)).
  unfold bind at 1. rewrite refine_run, Hkey, Href. simpl. rewrite Hr'. simpl.
  unfold bind at 1, final_recipe_text, bind at 1. rewrite convert_run, Hkey.
  match goal with |- context [with_audio_notes w audio ?t ?st] =>
    destruct (with_audio_notes_fetch_failed w audio t st Haudio)
      as (s' & Hrun & Htr & Hfs)
  end.
  rewrite Hrun. unfold ret.
  eexists _, _. split; [reflexivity |]. split; [reflexivity |].
  split; [exact Hfs |].
  rewrite Htr. unfold emit. simpl. rewrite <- !app_assoc. reflexivity.
Qed.

(** The prompt of the merge is never the prompt of a conversion: they
    differ at their eleventh character. *)
Lemma combine_prompt_not_convert (metric notes recipe : string) :
  String.eqb (Prompt.combine metric notes) (Prompt.convert recipe) = false.
Proof.
  apply String.eqb_neq. intros Heq.
  apply (f_equal (String.get 10)) in Heq. discriminate Heq.
Qed.

(** The optional audio stages ask the language model for nothing but the
    merge: a world that answers the merge prompts alike gives the same
    run. *)
Lemma with_audio_notes_same_merge (w : World) (f : string -> option string)
    (audio : Audio.t) (metric : string) (s : State) :
  (forall notes, f (Prompt.combine metric notes)
                 = generate_content w (Prompt.combine metric notes)) ->
  with_audio_notes (with_generate_content f w) audio metric s
  = with_audio_notes w audio metric s.
Proof.
  intros Hf. unfold with_audio_notes, bind.
  change (download_audio (with_generate_content f w) audio s)
    with (download_audio w audio s).
  destruct (download_audio w audio s) as [[st|e|] s1]; try reflexivity.
  destruct (decide (st = success)) as [Hst | Hst]; [| reflexivity].
  change (analyze_audio_with_gemini (with_generate_content f w))
    with (analyze_audio_with_gemini w).
  destruct (analyze_audio_with_gemini w (Audio.filepath audio) s1)
    as [[[notes|]|e'|] s2]; try reflexivity.
  destruct (Str.truthy notes); [| reflexivity].
  rewrite !combine_run.
  change (api_key_missing (with_generate_content f w)) with (api_key_missing w).
  change (generate_content (with_generate_content f w)) with f.
  now rewrite Hf.
Qed.

(** With a credential, what the optional audio stages hand back is the
    recipe they were given, or the non-empty answer of the merge of that
    recipe with non-empty notes. *)
Lemma with_audio_notes_result (w : World) (audio : Audio.t) (metric t : string)
    (s s' : State) :
  api_key_missing w = false ->
  with_audio_notes w audio metric s = (Val t, s') ->
  t = metric \/
  exists notes,
    notes <> "" /\ generate_content w (Prompt.combine metric notes) = Some t /\ t <> "".
Proof.
  intros Hkey. unfold with_audio_notes, bind at 1. rewrite download_audio_run. simpl.
  destruct (decide _) as [Hst | Hst]; clear Hst; [| intros [= <- _]; auto].
  unfold bind at 1.
  destruct (analyze_audio_with_gemini _ _ _) as [[[notes|]|e|] s2];
    try (intros [= <- _]; auto); try discriminate.
  destruct (Str.truthy notes) eqn:Hn; [| intros [= <- _]; auto].
  unfold bind. rewrite combine_run, Hkey.
  destruct (generate_content w _) as [combined|] eqn:Hc; [| intros [= <- _]; auto].
  destruct (Str.truthy combined) eqn:Ht; intros [= <- _]; [| auto].
  right. exists notes. split; [now apply str_truthy_true |].
  split; [exact Hc | now apply str_truthy_true].
Qed.

(** C10, as the code has it.  When the conversion gives the empty string,
    the run from the refined recipe to the final text is the run of a
    world in which the conversion raises: it goes on with the refined
    recipe, so the final text is the refined recipe, or, when the merge of
    the refined recipe with the notes succeeds, the merged text; it is the
    refined recipe when the audio download fails.  And a transcription
    that is falsy, the empty string just as [None], ends the optional
    stages with the recipe they were given, without a merge call. *)
Theorem empty_results_count_as_failures (w : World) (audio : Audio.t)
    (refined : string) (s : State) :
  api_key_missing w = false ->
  generate_content w (Prompt.convert refined) = Some "" ->
  let conversion_raises :=
    with_generate_content
      (fun prompt => if String.eqb prompt (Prompt.convert refined) then None
                     else generate_content w prompt) w in
  final_recipe_text w audio refined s
  = final_recipe_text conversion_raises audio refined s /\
  (forall t s',
     final_recipe_text w audio refined s = (Val t, s') ->
     t = refined \/
     exists notes,
       notes <> "" /\
       generate_content w (Prompt.combine refined notes) = Some t /\ t <> "") /\
  (audio_fetch_fails w audio (st_fs s) ->
   exists s', final_recipe_text w audio refined s = (Val refined, s')) /\
  (forall (metric : string) (s0 s2 s3 : State) (notes : option string),
     download_audio w audio s0 = (Val success, s2) ->
     analyze_audio_with_gemini w (Audio.filepath audio) s2 = (Val notes, s3) ->
     truthy notes = false ->
     with_audio_notes w audio metric s0 = (Val metric, s3) /\
     st_trace s3 = st_trace s0 ++ [EvLM TranscribeAudioNotes]).
Proof.
  intros Hkey Hempty conversion_raises.
  assert (Hw : final_recipe_text w audio refined s
               = with_audio_notes w audio refined (emit s (EvLM ConvertToMetric))).
  { unfold final_recipe_text, bind. now rewrite convert_run, Hkey, Hempty. }
  split; [| split; [| split]].
  - rewrite Hw. unfold final_recipe_text, bind. rewrite convert_run.
    change (api_key_missing conversion_raises) with (api_key_missing w).
    rewrite Hkey.
    change (generate_content conversion_raises (Prompt.convert refined))
      with (if String.eqb (Prompt.convert refined) (Prompt.convert refined)
            then None else generate_content w (Prompt.convert refined)).
    rewrite String.eqb_refl. simpl.
    symmetry. apply with_audio_notes_same_merge.
    intros notes. now rewrite combine_prompt_not_convert.
  - intros t s'. rewrite Hw. now apply with_audio_notes_result.
  - intros Hfail. rewrite Hw.
    destruct (with_audio_notes_fetch_failed w audio refined
                (emit s (EvLM ConvertToMetric)) Hfail) as (s' & Hrun & _).
    eauto.
  - intros metric s0 s2 s3 notes Hdl Hnotes Hn.
    unfold with_audio_notes. rewrite (bind_val _ _ _ _ _ Hdl). simpl.
    rewrite (bind_val _ _ _ _ _ Hnotes).
    split.
    + destruct notes as [t|]; [| reflexivity].
      simpl in Hn. rewrite Hn. reflexivity.
    + apply analyze_trace in Hnotes. subst s3. simpl.
      rewrite download_audio_run in Hdl. inversion Hdl. reflexivity.
Qed.

Lemma empty_results_count_as_failures_witness :
  exists s2 s3,
    download_audio Sample.empty_answers Sample.audio (initial_state ∅)
    = (Val success, s2) /\
    analyze_audio_with_gemini Sample.empty_answers (Audio.filepath Sample.audio) s2
    = (Val (Some ""), s3) /\
    (forall t s',
       final_recipe_text Sample.empty_answers Sample.audio "2 cups flour"
         (initial_state ∅) = (Val t, s') ->
       t = "2 cups flour" \/
       exists notes,
         notes <> "" /\
         generate_content Sample.empty_answers (Prompt.combine "2 cups flour" notes)
         = Some t /\ t <> "") /\
    with_audio_notes Sample.empty_answers Sample.audio "250 g flour" (initial_state ∅)
    = (Val "250 g flour", s3).
Proof.
  destruct (empty_results_count_as_failures Sample.empty_answers Sample.audio
              "2 cups flour" (initial_state ∅) eq_refl eq_refl)
    as (_ & Hfinal & _ & Hnotes).
  eexists _, _.
  split; [vm_compute; reflexivity |]. split; [vm_compute; reflexivity |].
  split; [exact Hfinal |].
  eapply (Hnotes "250 g flour" (initial_state ∅));
    [vm_compute; reflexivity | vm_compute; reflexivity | reflexivity].
Defined.

(** C10, counterexample.  The conversion gives the empty string, the
    audio is there, and the merge answers ["MERGED"]: the final text is
    the merged text, not the refined recipe. *)
Lemma empty_conversion_then_merge_counterexample :
  (convert_recipe_to_metric Sample2.empty_conversion_then_merge
     "Shortbread: 2 cups flour, 1 lb butter" (initial_state ∅)).1 = Val (Some "") /\
  (final_recipe_text Sample2.empty_conversion_then_merge Sample.audio
     "Shortbread: 2 cups flour, 1 lb butter" (initial_state ∅)).1 = Val "MERGED" /\
  "MERGED" <> "Shortbread: 2 cups flour, 1 lb butter".
Proof.
  split; [vm_compute; reflexivity |]. split; [vm_compute; reflexivity | discriminate].
Qed.

(** ** Delivery *)

(** [download_video] and the stages after it never change the path of the
    video. *)
Lemma prepare_recipe_filepath (w : World) (m : Message) (video video' : Video.t)
    (audio : Audio.t) (final : string) (s s1 : State) :
  prepare_recipe w m video audio s = (Val (Some (video', final)), s1) ->
  Video.filepath video' = Video.filepath video.
Proof.
  unfold prepare_recipe, bind, ret, download_video. intros H.
  repeat case_match; simplify_eq; reflexivity.
Qed.


Lemma send_rejected_run (w : World) (m : Message) (video : Video.t) (final e1 : string)
    (n1 n2 : nat) (err2 : option string) (s : State) :
  Str.truthy (Video.filepath video) = true ->
  Video.filepath video ∈ st_fs s ->
  send_video w (chat_id m) (Caption.final_caption final) (Some "MarkdownV2")
    = (Some e1, n1) ->
  send_video w (chat_id m) final None = (err2, n2) ->
  send_final_results w m video final s =
  (match err2 with None => Val tt | Some e2 => Exc e2 end,
   mkState (st_fs s) (st_reads s) n2
     (st_trace s ++ [first_attempt video final;
                     second_attempt video final (bool_decide (err2 = None))])).
Proof.
  intros Hpath Hin H1 H2.
  unfold send_final_results, bind, path_exists, open_rb, try_except, seek,
    bot_send_video.
  rewrite Hpath, (bool_decide_eq_true_2 _ Hin). simpl.
  rewrite H1. simpl. rewrite H2.
  unfold first_attempt, second_attempt.
  destruct err2; simpl; rewrite <- app_assoc; reflexivity.
Qed.

(** C8.  When the run reaches the delivery and the transport rejects the
    video with the formatted caption, the video is sent exactly once more,
    with the raw recipe text as caption, no parse mode, and the file read
    again from position 0; if the transport rejects that too, the run
    answers the user with the report of an unexpected error. *)
Theorem rejected_caption_is_retried_once (w : World) (url : string) (m : Message)
    (s s1 s' : State) (video : Video.t) (final e1 : string) (n1 : nat)
    (o : outcome unit) :
  prepare_recipe w m (Video.init url (chat_id m) (time_time w (st_reads s)))
    (Audio.init url (chat_id m) (time_time w (S (st_reads s)))) (entered s)
    = (Val (Some (video, final)), s1) ->
  Video.filepath video ∈ st_fs s1 ->
  send_video w (chat_id m) (Caption.final_caption final) (Some "MarkdownV2")
    = (Some e1, n1) ->
  process_url w url m s = (o, s') ->
  exists tr,
    st_trace s' = st_trace s1 ++ tr /\
    send_attempts tr
    = [(Caption.final_caption final, Some "MarkdownV2", 0); (final, None, 0)] /\
    (forall n2, send_video w (chat_id m) final None = (None, n2) ->
       (removals_succeed w m s -> o = Val tt) /\
       tr = [first_attempt video final; second_attempt video final true]) /\
    (forall e2 n2, send_video w (chat_id m) final None = (Some e2, n2) ->
       exists ok,
         tr = [first_attempt video final; second_attempt video final false;
               EvReply (Reply.unexpected e2) ok]).
Proof.
  intros Hprep Hin H1 Hrun.
  pose proof (prepare_recipe_filepath _ _ _ _ _ _ _ _ Hprep) as Hfp.
  assert (Hpath : Str.truthy (Video.filepath video) = true)
    by (rewrite Hfp; reflexivity).
  destruct (send_video w (chat_id m) final None) as [err2 n2] eqn:H2.
  pose proof (send_rejected_run w m video final e1 n1 n2 err2 s1 Hpath Hin H1 H2)
    as Hsend.
  assert (Hbody : process_body w m
                    (Video.init url (chat_id m) (time_time w (st_reads s)))
                    (Audio.init url (chat_id m) (time_time w (S (st_reads s))))
                    (entered s)
                  = send_final_results w m video final s1).
  { unfold process_body. now rewrite (bind_val _ _ _ _ _ Hprep). }
  rewrite Hsend in Hbody. clear Hsend.
  destruct err2 as [e2|].
  - destruct (reply_to w m (Reply.unexpected e2)) as [e3|] eqn:Hr.
    + edestruct (process_url_trace w url m s) as (o2 & s2 & Hrun2 & Htr & Hor & Hsucc).
      { unfold try_except. rewrite Hbody.
        apply (reply_rejected _ _ _ _ _ Hr). }
      rewrite Hrun in Hrun2. inversion Hrun2; subst. rewrite Htr. simpl.
      rewrite <- app_assoc. simpl.
      eexists; split; [reflexivity |]; split; [reflexivity |].
      split; [intros ? [=] | intros ? ? [= <- <-]; eexists; reflexivity].
    + edestruct (process_url_trace w url m s) as (o2 & s2 & Hrun2 & Htr & Hor & Hsucc).
      { unfold try_except. rewrite Hbody.
        apply (reply_accepted _ _ _ _ Hr). }
      rewrite Hrun in Hrun2. inversion Hrun2; subst. rewrite Htr. simpl.
      rewrite <- app_assoc. simpl.
      eexists; split; [reflexivity |]; split; [reflexivity |].
      split; [intros ? [=] | intros ? ? [= <- <-]; eexists; reflexivity].
  - edestruct (process_url_trace w url m s) as (o2 & s2 & Hrun2 & Htr & Hor & Hsucc).
    { unfold try_except. rewrite Hbody. reflexivity. }
    rewrite Hrun in Hrun2. inversion Hrun2; subst. rewrite Htr. simpl.
    eexists; split; [reflexivity |]; split; [reflexivity |].
    split; [intros ? _; split; [exact Hsucc | reflexivity] | intros ? ? [=]].
Qed.

Lemma rejected_caption_is_retried_once_witness :
  exists video final s1 o s',
    prepare_recipe Sample.sends_rejected Sample.message
      (Video.init Sample.url 7 1700000000) (Audio.init Sample.url 7 1700000001)
      (entered (initial_state ∅))
    = (Val (Some (video, final)), s1) /\
    process_url Sample.sends_rejected Sample.url Sample.message (initial_state ∅)
    = (o, s') /\
    exists tr,
      st_trace s' = st_trace s1 ++ tr /\
      send_attempts tr
      = [(Caption.final_caption final, Some "MarkdownV2", 0); (final, None, 0)] /\
      (forall n2, send_video Sample.sends_rejected 7 final None = (None, n2) ->
         (removals_succeed Sample.sends_rejected Sample.message (initial_state ∅) ->
          o = Val tt) /\
         tr = [first_attempt video final; second_attempt video final true]) /\
      (forall e2 n2, send_video Sample.sends_rejected 7 final None = (Some e2, n2) ->
         exists ok,
           tr = [first_attempt video final; second_attempt video final false;
                 EvReply (Reply.unexpected e2) ok]).
Proof.
  eexists _, _, _, _, _.
  split; [vm_compute; reflexivity |]. split; [vm_compute; reflexivity |].
  eapply (rejected_caption_is_retried_once Sample.sends_rejected Sample.url
            Sample.message (initial_state ∅)).
  - vm_compute; reflexivity.
  - vm_compute; reflexivity.
  - reflexivity.
  - vm_compute; reflexivity.
Defined.

Lemma send_accepted_run (w : World) (m : Message) (video : Video.t) (final : string)
    (n : nat) (s : State) :
  Str.truthy (Video.filepath video) = true ->
  Video.filepath video ∈ st_fs s ->
  send_video w (chat_id m) (Caption.final_caption final) (Some "MarkdownV2")
    = (None, n) ->
  send_final_results w m video final s =
  (Val tt,
   mkState (st_fs s) (st_reads s) n (st_trace s ++ [accepted_attempt video final])).
Proof.
  intros Hpath Hin H1.
  unfold send_final_results, bind, path_exists, open_rb, try_except, bot_send_video.
  rewrite Hpath, (bool_decide_eq_true_2 _ Hin). simpl. rewrite H1. reflexivity.
Qed.

(** C6.  When the video download gives a non-empty description, the
    refine call gives a non-empty recipe, the audio download fails and the
    video file is on local storage for the delivery, the run makes the
    refine and the convert call and no other, and the recipe text it
    sends is the metric-converted recipe, or the refined recipe if the
    conversion gave nothing; that text is never empty.  It is sent wrapped
    in the formatted caption, then plain if the transport rejects the
    formatted caption, and the user receives the first of the two the
    transport accepts. *)
Theorem audio_failure_keeps_text_recipe (w : World) (url : string) (m : Message)
    (s s' : State) (o : outcome unit) (info : VideoInfo) (fs1 : gset string)
    (d refined : string) :
  replies_accepted w m ->
  extract_info w url (Video.path_of (chat_id m) (time_time w (st_reads s))) "mp4"
    (st_fs s) = (Some info, fs1) ->
  info_description info = Some d -> d <> "" ->
  api_key_missing w = false ->
  generate_content w (Prompt.refine d) = Some refined -> refined <> "" ->
  audio_fetch_fails w
    (Audio.init url (chat_id m) (time_time w (S (st_reads s)))) fs1 ->
  Video.path_of (chat_id m) (time_time w (st_reads s))
  ∈ (download w url (Audio.path_of (chat_id m) (time_time w (S (st_reads s)))) fs1).2 ->
  process_url w url m s = (o, s') ->
  let converted := generate_content w (Prompt.convert refined) in
  exists final tr,
    st_trace s' = st_trace s ++ tr /\
    final <> "" /\
    (forall metric, converted = Some metric -> metric <> "" -> final = metric) /\
    (converted = None \/ converted = Some "" -> final = refined) /\
    lm_calls tr = [RefineToRecipe; ConvertToMetric] /\
    (exists rest,
       send_attempts tr = (Caption.final_caption final, Some "MarkdownV2", 0) :: rest /\
       (rest = [] \/ rest = [(final, None, 0)])) /\
    captions_delivered tr
    = match send_video w (chat_id m) (Caption.final_caption final) (Some "MarkdownV2") with
      | (None, _) => [Caption.final_caption final]
      | (Some _, _) =>
          match send_video w (chat_id m) final None with
          | (None, _) => [final]
          | (Some _, _) => []
          end
      end.
Proof.
  intros Hok Hdl Hdesc Hd Hkey Href Hr Haudio Hfile Hrun converted.
  destruct (prepare_recipe_audio_failed w m
              (Video.init url (chat_id m) (time_time w (st_reads s)))
              (Audio.init url (chat_id m) (time_time w (S (st_reads s))))
              (entered s) info fs1 d refined Hok Hdl Hdesc Hd Hkey Href Hr Haudio)
    as (video & s1 & Hprep & Hfp & Hfs & Htr1).
  fold converted in Hprep. set (final := py_or converted refined) in *.
  assert (Hin : Video.filepath video ∈ st_fs s1) by (rewrite Hfp, Hfs; exact Hfile).
  assert (Hpath : Str.truthy (Video.filepath video) = true)
    by (rewrite Hfp; reflexivity).
  assert (Hbody : process_body w m
                    (Video.init url (chat_id m) (time_time w (st_reads s)))
                    (Audio.init url (chat_id m) (time_time w (S (st_reads s))))
                    (entered s)
                  = send_final_results w m video final s1).
  { unfold process_body. now rewrite (bind_val _ _ _ _ _ Hprep). }
  assert (Hfinal : final <> "") by (now apply py_or_truthy).
  assert (Hconv : (forall metric, converted = Some metric -> metric <> "" ->
                                  final = metric) /\
                  (converted = None \/ converted = Some "" -> final = refined)).
  { unfold final. split.
    - intros metric -> Hm. unfold py_or.
      now rewrite (proj2 (str_truthy_true metric) Hm).
    - intros [-> | ->]; reflexivity. }
  destruct Hconv as [Hconv1 Hconv2].
  exists final.
  destruct (send_video w (chat_id m) (Caption.final_caption final) (Some "MarkdownV2"))
    as [[e1|] n1] eqn:H1.
  - destruct (send_video w (chat_id m) final None) as [err2 n2] eqn:H2.
    rewrite (send_rejected_run w m video final e1 n1 n2 err2 s1 Hpath Hin H1 H2)
      in Hbody.
    destruct err2 as [e2|].
    + edestruct (process_url_trace w url m s) as (o2 & s2 & Hrun2 & Htr & _ & _).
      { unfold try_except. rewrite Hbody.
        apply (reply_accepted _ _ _ _ (Hok _)). }
      rewrite Hrun in Hrun2. inversion Hrun2; subst o2 s2.
      eexists. split.
      { rewrite Htr. unfold emit. simpl. rewrite Htr1, <- !app_assoc. reflexivity. }
      simpl. repeat split; auto. eexists; split; [reflexivity | auto].
    + edestruct (process_url_trace w url m s) as (o2 & s2 & Hrun2 & Htr & _ & _).
      { unfold try_except. rewrite Hbody. reflexivity. }
      rewrite Hrun in Hrun2. inversion Hrun2; subst o2 s2.
      eexists. split.
      { rewrite Htr. simpl. rewrite Htr1, <- !app_assoc. reflexivity. }
      simpl. repeat split; auto. eexists; split; [reflexivity | auto].
  - rewrite (send_accepted_run w m video final n1 s1 Hpath Hin H1) in Hbody.
    edestruct (process_url_trace w url m s) as (o2 & s2 & Hrun2 & Htr & _ & _).
    { unfold try_except. rewrite Hbody. reflexivity. }
    rewrite Hrun in Hrun2. inversion Hrun2; subst o2 s2.
    eexists. split.
    { rewrite Htr. simpl. rewrite Htr1, <- !app_assoc. reflexivity. }
    simpl. repeat split; auto. eexists; split; [reflexivity | auto].
Qed.

Lemma audio_failure_keeps_text_recipe_witness :
  exists o s' final tr,
    process_url Sample2.metric_without_audio Sample.url Sample.message (initial_state ∅)
    = (o, s') /\
    st_trace s' = [] ++ tr /\
    final = "Shortbread: 250 g flour, 450 g butter" /\
    lm_calls tr = [RefineToRecipe; ConvertToMetric] /\
    captions_delivered tr = [Caption.final_caption final].
Proof.
  destruct (process_url Sample2.metric_without_audio Sample.url Sample.message
              (initial_state ∅)) as [o s'] eqn:Hrun.
  exists o, s'.
  destruct (audio_failure_keeps_text_recipe Sample2.metric_without_audio Sample.url
              Sample.message (initial_state ∅) s' o Sample.info
              {["video_7_1700000000.mp4"]}
              "2 cups flour, 1 lb butter" "Shortbread: 2 cups flour, 1 lb butter")
    as (final & tr & Htr & _ & Hmetric & _ & Hlm & _ & Hcap).
  - intros t. reflexivity.
  - vm_compute. reflexivity.
  - reflexivity.
  - discriminate.
  - reflexivity.
  - vm_compute. reflexivity.
  - discriminate.
  - left. reflexivity.
  - vm_compute. reflexivity.
  - exact Hrun.
  - assert (Hfin : final = "Shortbread: 250 g flour, 450 g butter")
      by (apply Hmetric; [vm_compute; reflexivity | discriminate]).
    exists final, tr. split; [reflexivity |]. split; [exact Htr |].
    split; [exact Hfin |]. split; [exact Hlm |].
    rewrite Hcap. reflexivity.
Defined.

(** ** When a run ends *)

(** Outside [PROCESSING] the polling loop is not entered. *)
Lemma wait_while_processing_settled (answers : list file_obs) (current : file_state) :
  current <> PROCESSING ->
  wait_while_processing answers current = Val current.
Proof. destruct answers, current; simpl; congruence. Qed.

(** The polling loop ends as soon as the file service gives an answer
    other than [PROCESSING]. *)
Lemma wait_while_processing_ends (answers : list file_obs) (current : file_state) :
  (exists obs, obs ∈ answers /\ obs <> ObsState PROCESSING) ->
  wait_while_processing answers current <> Hang.
Proof.
  revert current. induction answers as [|obs rest IH]; intros current (o & Hin & Hne).
  - apply elem_of_nil in Hin. contradiction.
  - destruct (decide (current = PROCESSING)) as [-> | Hcur];
      [| now rewrite wait_while_processing_settled].
    simpl. destruct obs as [next|]; [| discriminate].
    apply elem_of_cons in Hin as [-> | Hin].
    + rewrite wait_while_processing_settled by congruence. discriminate.
    + apply IH. eauto.
Qed.

Lemma analyze_hang (w : World) (path : string) (s s' : State) :
  analyze_audio_with_gemini w path s = (Hang, s') ->
  exists uploaded,
    upload_file w path = ObsState uploaded /\
    wait_while_processing (get_file w path) uploaded = Hang.
Proof.
  unfold analyze_audio_with_gemini, bind, log, ret, hang. intros H.
  repeat case_match; simplify_eq; eauto.
Qed.

(** A run of [process_url] that never ends is a run stuck in the polling
    loop of the audio upload. *)
Lemma process_url_hang (w : World) (url : string) (m : Message) (s s' : State) :
  process_url w url m s = (Hang, s') ->
  exists uploaded,
    let path := Audio.path_of (chat_id m) (time_time w (S (st_reads s))) in
    upload_file w path = ObsState uploaded /\
    wait_while_processing (get_file w path) uploaded = Hang.
Proof.
  intros H.
  destruct (try_except
              (process_body w m
                 (Video.init url (chat_id m) (time_time w (st_reads s)))
                 (Audio.init url (chat_id m) (time_time w (S (st_reads s)))))
              (fun e => bot_reply_to w m (Reply.unexpected e)) (entered s))
    as [r s1] eqn:Hbody.
  destruct (process_url_trace w url m s s1 r Hbody) as (o2 & s2 & Hrun2 & _ & Hor & _).
  rewrite H in Hrun2. inversion Hrun2; subst o2 s2.
  destruct Hor as [<- | (e & [=] & _)]. clear H Hrun2. simpl.
  unfold try_except, process_body, prepare_recipe, send_final_results,
    final_recipe_text, with_audio_notes, bind, ret, bot_reply_to, log, raise,
    download_video, download_audio, refine_with_gemini, convert_recipe_to_metric,
    combine_recipe_and_audio, path_exists, open_rb, seek, bot_send_video in Hbody.
  repeat (case_match; simplify_eq);
    match goal with
    | H : analyze_audio_with_gemini _ _ _ = (Hang, _) |- _ =>
        apply analyze_hang in H; exact H
    end.
Qed.

(** ** Reading traces *)

Lemma lm_calls_app (tr1 tr2 : list event) :
  lm_calls (tr1 ++ tr2) = lm_calls tr1 ++ lm_calls tr2.
Proof. apply omap_app. Qed.

(** Whatever the transport does with the replies, a run whose video
    download fails makes no call to the language model. *)
Lemma video_download_failure_no_lm_call (w : World) (url : string) (m : Message)
    (s s' : State) (o : outcome unit) (fs1 : gset string) :
  extract_info w url (Video.path_of (chat_id m) (time_time w (st_reads s))) "mp4"
    (st_fs s) = (None, fs1) ->
  process_url w url m s = (o, s') ->
  lm_calls (st_trace s') = lm_calls (st_trace s).
Proof.
  intros Hdl Hrun.
  destruct (try_except
              (process_body w m
                 (Video.init url (chat_id m) (time_time w (st_reads s)))
                 (Audio.init url (chat_id m) (time_time w (S (st_reads s)))))
              (fun e => bot_reply_to w m (Reply.unexpected e)) (entered s))
    as [r s1] eqn:Hbody.
  destruct (process_url_trace w url m s s1 r Hbody) as (o2 & s2 & Hrun2 & Htr & _).
  rewrite Hrun in Hrun2. inversion Hrun2; subst. rewrite Htr. clear Hrun Hrun2 Htr.
  unfold_run. unfold bind, log, raise, emit in Hbody.
  destruct (reply_to w m Reply.fetching); simpl in Hbody;
    [| rewrite Hdl in Hbody; simpl in Hbody];
    repeat (case_match; simplify_eq); simpl;
    rewrite ?lm_calls_app; simpl; rewrite ?app_nil_r; reflexivity.
Qed.

(** ** A complete run *)

(** In the friendly world the four operations are invoked in order, the
    file service is polled until it leaves [PROCESSING], the merged recipe
    is delivered in a literal block, and the run ends normally. *)
Example friendly_run :
  let r := process_url Sample.friendly Sample.url Sample.message (initial_state ∅) in
  r.1 = Val tt /\
  lm_calls (st_trace r.2)
  = [RefineToRecipe; ConvertToMetric; TranscribeAudioNotes; MergeRecipeAndNotes] /\
  captions_delivered (st_trace r.2) = ["```LM:You are a master rec```"] /\
  replies_received (st_trace r.2) = [Reply.fetching; Reply.refining].
Proof. vm_compute. auto. Qed.

(** When only the markup is refused, the plain caption gets through. *)
Example markup_rejected_run :
  let r := process_url Sample.markup_rejected Sample.url Sample.message
             (initial_state ∅) in
  r.1 = Val tt /\
  send_attempts (st_trace r.2)
  = [("```LM:You are a master rec```", Some "MarkdownV2", 0);
     ("LM:You are a master rec", None, 0)] /\
  captions_delivered (st_trace r.2) = ["LM:You are a master rec"].
Proof. vm_compute. auto. Qed.

(** * Further properties of the code *)

(** ** The caption, for every text *)

Lemma str_take_app_exact (a b : string) :
  Str.take (String.length a) (a +:+ b) = a.
Proof.
  induction a as [|c a IH]; [now destruct b |].
  rewrite str_app_cons. simpl. now rewrite IH.
Qed.

Lemma str_take_take (n : nat) (t : string) :
  Str.take n (Str.take n t) = Str.take n t.
Proof.
  revert t; induction n as [|n IH]; intros [|c t]; simpl; [reflexivity .. |].
  now rewrite IH.
Qed.

(** The caption fits the limit of 1024 units exactly when the text has at
    most 1018 units or more than 1024. *)
Theorem caption_fits_iff (t : string) :
  String.length (Caption.final_caption t) <= Caption.max_len <->
  String.length t <= 1018 \/ Caption.max_len < String.length t.
Proof.
  unfold Caption.final_caption. rewrite length_wrap.
  destruct (le_lt_dec (String.length t) Caption.max_len) as [Hle | Hlt].
  - rewrite (caption_text_short t Hle). unfold Caption.max_len in *. lia.
  - rewrite (caption_text_long t Hlt), str_length_app, str_length_take,
      length_truncated_suffix.
    unfold Caption.max_len in *. lia.
Qed.

(** Whatever the text, the inner text of the caption starts with the
    first 1002 units of the text. *)
Theorem caption_keeps_the_head (t : string) :
  Str.take 1002 (Caption.caption_text t) = Str.take 1002 t.
Proof.
  destruct (le_lt_dec (String.length t) Caption.max_len) as [Hle | Hlt].
  - now rewrite (caption_text_short t Hle).
  - rewrite (caption_text_long t Hlt).
    assert (Hlen : String.length (Str.take 1002 t) = 1002).
    { rewrite str_length_take. unfold Caption.max_len in Hlt. lia. }
    rewrite <- Hlen at 1. apply str_take_app_exact.
Qed.

(** Truncating twice is truncating once: the inner text of a caption is
    left alone when it goes through the truncation again. *)
Theorem caption_text_idempotent (t : string) :
  Caption.caption_text (Caption.caption_text t) = Caption.caption_text t.
Proof.
  apply caption_text_short.
  destruct (le_lt_dec (String.length t) Caption.max_len) as [Hle | Hlt].
  - now rewrite (caption_text_short t Hle).
  - rewrite (caption_text_long t Hlt), str_length_app, str_length_take,
      length_truncated_suffix.
    unfold Caption.max_len in *. lia.
Qed.

(** A text of at most 1024 units is wrapped as it is. *)
Theorem short_text_caption_is_whole (t : string) :
  String.length t <= Caption.max_len ->
  Caption.final_caption t = Caption.wrap t /\
  String.length (Caption.final_caption t) = String.length t + 6.
Proof.
  intros Hle. unfold Caption.final_caption.
  rewrite (caption_text_short t Hle). split; [reflexivity | apply length_wrap].
Qed.

Lemma short_text_caption_is_whole_witness :
  String.length "2 cups flour" <= Caption.max_len /\
  Caption.final_caption "2 cups flour" = Caption.wrap "2 cups flour" /\
  String.length (Caption.final_caption "2 cups flour") = String.length "2 cups flour" + 6.
Proof.
  assert (H : String.length "2 cups flour" <= Caption.max_len)
    by (unfold Caption.max_len; simpl; lia).
  split; [exact H | exact (short_text_caption_is_whole _ H)].
Defined.

(** ** The polling loop of the audio upload *)

(** The loop passes over any number of [PROCESSING] answers and stops at
    the first answer that is something else; later answers are not asked
    for. *)
Lemma wait_while_processing_skips (n : nat) (obs : file_obs) (rest : list file_obs) :
  obs <> ObsState PROCESSING ->
  wait_while_processing (replicate n (ObsState PROCESSING) ++ obs :: rest) PROCESSING
  = match obs with
    | ObsState st => Val st
    | ObsRaise => Exc ""
    end.
Proof.
  intros Hobs. induction n as [|n IH]; simpl; [| exact IH].
  destruct obs as [st|]; [| reflexivity].
  apply wait_while_processing_settled. congruence.
Qed.

(** The loop never ends exactly when the file is [PROCESSING] and every
    answer still to come says so. *)
Theorem wait_while_processing_hang_iff (answers : list file_obs) (current : file_state) :
  wait_while_processing answers current = Hang <->
  current = PROCESSING /\ Forall (fun obs => obs = ObsState PROCESSING) answers.
Proof.
  revert current. induction answers as [|obs rest IH]; intros current.
  - destruct current; simpl; split; try discriminate; try (intros [[=] _]); auto.
  - destruct (decide (current = PROCESSING)) as [-> | Hcur].
    + simpl. destruct obs as [next|].
      * rewrite IH. split.
        -- intros [-> Hall]. split; [reflexivity | now constructor].
        -- intros [_ Hall]. inversion Hall as [|? ? Hhd Htl]; subst.
           inversion Hhd; subst. auto.
      * split; [discriminate |]. intros [_ Hall].
        inversion Hall as [|? ? Hhd Htl]. discriminate.
    + rewrite wait_while_processing_settled by exact Hcur.
      split; [discriminate | intros [? _]; contradiction].
Qed.

(** What [analyze_audio_with_gemini] returns with a credential, when the
    upload starts in [PROCESSING] and the service gives [n] more
    [PROCESSING] answers before another one: [None] when that answer is an
    exception or [FAILED], the transcription otherwise. *)
Theorem analyze_after_polling (w : World) (path : string) (n : nat) (obs : file_obs)
    (rest : list file_obs) (s : State) :
  api_key_missing w = false ->
  upload_file w path = ObsState PROCESSING ->
  get_file w path = replicate n (ObsState PROCESSING) ++ obs :: rest ->
  obs <> ObsState PROCESSING ->
  analyze_audio_with_gemini w path s =
  (Val (match obs with
        | ObsRaise | ObsState FAILED => None
        | ObsState _ => generate_content_with_file w Prompt.analyze path
        end),
   emit s (EvLM TranscribeAudioNotes)).
Proof.
  intros Hkey Hup Hget Hobs.
  unfold analyze_audio_with_gemini, bind, log, ret.
  rewrite Hkey, Hup, Hget, (wait_while_processing_skips n obs rest Hobs).
  destruct obs as [[| | |]|]; reflexivity.
Qed.

Lemma analyze_after_polling_witness :
  analyze_audio_with_gemini Sample.friendly "audio_7_1700000001.mp3" (initial_state ∅) =
  (Val (Some "stir well"), emit (initial_state ∅) (EvLM TranscribeAudioNotes)).
Proof.
  apply (analyze_after_polling Sample.friendly "audio_7_1700000001.mp3" 1
           (ObsState ACTIVE) [] (initial_state ∅)); [reflexivity .. | discriminate].
Defined.

(** ** The temporary paths *)

From Stdlib Require Import Ascii.

Lemma char_free_app (c : Ascii.ascii) (s1 s2 : string) :
  char_free c s1 -> char_free c s2 -> char_free c (s1 +:+ s2).
Proof.
  induction s1 as [|d s1 IH]; [intros _ H; exact H |].
  rewrite str_app_cons. simpl. intros [Hd H1] H2. auto.
Qed.

(** A separator that occurs in neither front part cuts a string in one
    way only. *)
Lemma split_at_separator (c : Ascii.ascii) (a a' b b' : string) :
  char_free c a -> char_free c a' ->
  a +:+ String c b = a' +:+ String c b' ->
  a = a' /\ b = b'.
Proof.
  revert a'. induction a as [|d a IH]; intros [|d' a'] Ha Ha' Heq.
  - change (String c b = String c b') in Heq. now inversion Heq.
  - change (String c b = String d' (a' +:+ String c b')) in Heq.
    inversion Heq; subst. now destruct Ha'.
  - change (String d (a +:+ String c b) = String c b') in Heq.
    inversion Heq; subst. now destruct Ha.
  - rewrite !str_app_cons in Heq. inversion Heq; subst.
    destruct Ha as [_ Ha], Ha' as [_ Ha'].
    destruct (IH a' Ha Ha' ltac:(assumption)) as [-> ->]. auto.
Qed.

Lemma pretty_N_go_char_free (c : Ascii.ascii) (x : N) (s : string) :
  (forall y, pretty_N_char y <> c) ->
  char_free c s -> char_free c (pretty_N_go x s).
Proof.
  intros Hc. revert s.
  induction (N.lt_wf_0 x) as [x _ IH]; intros s Hs.
  destruct (decide (x = 0)%N) as [-> | Hx]; [now rewrite pretty_N_go_0 |].
  rewrite pretty_N_go_step by lia.
  apply IH; [apply N.div_lt; lia |]. simpl. auto.
Qed.

(** The decimal form of an integer has no character other than digits
    and the sign. *)
Lemma pretty_Z_char_free (c : Ascii.ascii) (z : Z) :
  (forall y, pretty_N_char y <> c) -> c <> "-"%char ->
  char_free c (pretty z).
Proof.
  intros Hc Hdash.
  assert (HN : forall p, char_free c (pretty (N.pos p))).
  { intros p. unfold pretty, pretty_N. destruct (decide _); [discriminate |].
    apply pretty_N_go_char_free; simpl; auto. }
  destruct z as [|p|p]; unfold pretty, pretty_Z.
  - simpl. split; [| exact I]. exact (Hc 0%N).
  - apply HN.
  - apply char_free_app; [simpl; auto | apply HN].
Qed.

Lemma underscore_not_digit (y : N) : pretty_N_char y <> "_"%char.
Proof. unfold pretty_N_char. repeat case_match; discriminate. Qed.

Lemma dot_not_digit (y : N) : pretty_N_char y <> "."%char.
Proof. unfold pretty_N_char. repeat case_match; discriminate. Qed.

Lemma decimal_pair_unique (c c' t t' : Z) (ext : string) :
  pretty c +:+ "_" +:+ pretty t +:+ String "."%char ext
  = pretty c' +:+ "_" +:+ pretty t' +:+ String "."%char ext ->
  c = c' /\ t = t'.
Proof.
  intros Heq.
  apply (split_at_separator "_"%char) in Heq as [Hc Heq];
    [| apply pretty_Z_char_free; [apply underscore_not_digit | discriminate] ..].
  apply (split_at_separator "."%char) in Heq as [Ht _];
    [| apply pretty_Z_char_free; [apply dot_not_digit | discriminate] ..].
  split; eapply (inj pretty); eassumption.
Qed.

(** Two videos get the same path exactly when they come from the same
    chat in the same second, the same holds for two audios, and a video
    never shares its path with an audio. *)
Theorem temporary_paths_collide_iff (c c' t t' : Z) :
  (Video.path_of c t = Video.path_of c' t' <-> c = c' /\ t = t') /\
  (Audio.path_of c t = Audio.path_of c' t' <-> c = c' /\ t = t') /\
  Video.path_of c t <> Audio.path_of c' t'.
Proof.
  split; [| split].
  - split; [| now intros [-> ->]].
    unfold Video.path_of. intros Heq.
    apply (inj (String.app "video_")) in Heq. now apply decimal_pair_unique in Heq.
  - split; [| now intros [-> ->]].
    unfold Audio.path_of. intros Heq.
    apply (inj (String.app "audio_")) in Heq. now apply decimal_pair_unique in Heq.
  - discriminate.
Qed.

(** ** Every run of [process_url] *)

(** The protected block decides the trace of the run, and its result
    unless a removal of the [finally] block raises. *)
Lemma process_url_via_body (w : World) (url : string) (m : Message) (s s' : State)
    (o : outcome unit) :
  process_url w url m s = (o, s') ->
  exists r s1,
    try_except
      (process_body w m (Video.init url (chat_id m) (time_time w (st_reads s)))
         (Audio.init url (chat_id m) (time_time w (S (st_reads s)))))
      (fun e => bot_reply_to w m (Reply.unexpected e)) (entered s) = (r, s1) /\
    st_trace s' = st_trace s1 /\
    (o = r \/
     exists e, o = Exc e /\
               (remove_error w (Video.path_of (chat_id m) (time_time w (st_reads s)))
                = Some e \/
                remove_error w (Audio.path_of (chat_id m)
                                  (time_time w (S (st_reads s)))) = Some e)).
Proof.
  intros Hrun.
  destruct (try_except _ _ (entered s)) as [r s1] eqn:Hbody.
  destruct (process_url_trace w url m s s1 r Hbody) as (o2 & s2 & Hrun2 & Htr & Hor & _).
  rewrite Hrun in Hrun2. inversion Hrun2; subst. eauto.
Qed.

(** Case analysis over the paths of the protected block. *)
Ltac explore H :=
  unfold try_except, process_body, prepare_recipe, send_final_results,
    final_recipe_text, with_audio_notes, bot_reply_to in H;
  unfold bind, ret, log, raise, download_video, download_audio,
    refine_with_gemini, convert_recipe_to_metric, combine_recipe_and_audio,
    path_exists, open_rb, seek, bot_send_video, entered in H;
  simpl in H;
  repeat (case_match; simplify_eq);
  repeat match goal with
         | Ha : analyze_audio_with_gemini _ _ _ = _ |- _ =>
             apply analyze_trace in Ha; subst
         end.

(** An exception leaves [process_url] only when the report of an
    unexpected error is itself refused by the transport, or when a removal
    of the [finally] block raises; what propagates is the exception of
    that reply or of that removal. *)
Theorem process_url_raises_only_from_the_report (w : World) (url : string)
    (m : Message) (s s' : State) (e : string) :
  process_url w url m s = (Exc e, s') ->
  (exists e0, reply_to w m (Reply.unexpected e0) = Some e) \/
  remove_error w (Video.path_of (chat_id m) (time_time w (st_reads s))) = Some e \/
  remove_error w (Audio.path_of (chat_id m) (time_time w (S (st_reads s)))) = Some e.
Proof.
  intros Hrun.
  destruct (process_url_via_body _ _ _ _ _ _ Hrun) as (r & s1 & Hbody & _ & Hor).
  destruct Hor as [<- | (e' & [= <-] & Hrem)]; [| right; exact Hrem].
  left. explore Hbody; eauto.
Qed.

(** ** Stage by stage *)

Lemma send_attempts_app (tr1 tr2 : list event) :
  send_attempts (tr1 ++ tr2) = send_attempts tr1 ++ send_attempts tr2.
Proof. apply omap_app. Qed.

Lemma captions_delivered_app (tr1 tr2 : list event) :
  captions_delivered (tr1 ++ tr2) = captions_delivered tr1 ++ captions_delivered tr2.
Proof. apply omap_app. Qed.

Lemma analyze_never_raises (w : World) (path : string) (s s' : State) (e : string) :
  analyze_audio_with_gemini w path s <> (Exc e, s').
Proof.
  unfold analyze_audio_with_gemini, bind, log, ret, hang.
  repeat case_match; congruence.
Qed.

(** The optional audio stages never raise, deliver nothing, call the
    language model for the transcription and then for the merge at most,
    and hand back a text that is not empty if the one they were given is
    not. *)
Lemma with_audio_notes_inv (w : World) (audio : Audio.t) (metric : string)
    (s s1 : State) (r : outcome string) :
  with_audio_notes w audio metric s = (r, s1) ->
  exists tr,
    st_trace s1 = st_trace s ++ tr /\
    (tr = [] \/ tr = [EvLM TranscribeAudioNotes]
     \/ tr = [EvLM TranscribeAudioNotes; EvLM MergeRecipeAndNotes]) /\
    (forall e, r <> Exc e) /\
    (forall t, r = Val t -> metric <> "" -> t <> "").
Proof.
  unfold with_audio_notes, bind at 1. rewrite download_audio_run. simpl.
  destruct (decide _) as [Hst | Hst]; clear Hst.
  - unfold bind at 1.
    destruct (analyze_audio_with_gemini _ _ _) as [ro s2] eqn:Ha.
    pose proof (analyze_trace _ _ _ _ _ Ha) as ->.
    destruct ro as [[notes|]|e|].
    + destruct (Str.truthy notes).
      * unfold bind. rewrite combine_run.
        destruct (if api_key_missing w then _ else _) as [combined|].
        -- destruct (Str.truthy combined) eqn:Hc; intros [= <- <-];
             (exists [EvLM TranscribeAudioNotes; EvLM MergeRecipeAndNotes];
              split; [simpl; now rewrite <- app_assoc |];
              split; [auto |]; split; [discriminate |];
              intros t [= <-] Hm; try exact Hm; now apply str_truthy_true).
        -- intros [= <- <-].
           exists [EvLM TranscribeAudioNotes; EvLM MergeRecipeAndNotes].
           split; [simpl; now rewrite <- app_assoc |].
           split; [auto |]. split; [discriminate |]. now intros t [= <-] Hm.
      * intros [= <- <-]. exists [EvLM TranscribeAudioNotes].
        split; [reflexivity |]. split; [auto |]. split; [discriminate |].
        now intros t [= <-] Hm.
    + intros [= <- <-]. exists [EvLM TranscribeAudioNotes].
      split; [reflexivity |]. split; [auto |]. split; [discriminate |].
      now intros t [= <-] Hm.
    + now apply analyze_never_raises in Ha.
    + intros [= <- <-]. exists [EvLM TranscribeAudioNotes].
      split; [reflexivity |]. split; [auto |]. split; [discriminate |]. discriminate.
  - intros [= <- <-]. exists []. split; [simpl; now rewrite app_nil_r |].
    split; [auto |]. split; [discriminate |]. now intros t [= <-] Hm.
Qed.

Lemma final_recipe_text_inv (w : World) (audio : Audio.t) (refined : string)
    (s s1 : State) (r : outcome string) :
  final_recipe_text w audio refined s = (r, s1) ->
  exists tr,
    st_trace s1 = st_trace s ++ EvLM ConvertToMetric :: tr /\
    (tr = [] \/ tr = [EvLM TranscribeAudioNotes]
     \/ tr = [EvLM TranscribeAudioNotes; EvLM MergeRecipeAndNotes]) /\
    (forall e, r <> Exc e) /\
    (forall t, r = Val t -> refined <> "" -> t <> "").
Proof.
  unfold final_recipe_text, bind. rewrite convert_run. intros H.
  apply with_audio_notes_inv in H as (tr & Htr & Hshape & Hexc & Hval).
  exists tr. split; [| split; [exact Hshape | split; [exact Hexc |]]].
  - rewrite Htr. simpl. now rewrite <- app_assoc.
  - intros t Ht Hr. apply (Hval t Ht). now apply py_or_truthy.
Qed.

Ltac prefix_of_order :=
  first [ by exists 0 | by exists 1 | by exists 2 | by exists 3 | by exists 4 ].

Ltac early_leaf tr0 :=
  intros [= <- <-]; exists tr0;
  split; [unfold emit; simpl; rewrite <- ?app_assoc; reflexivity |];
  split; [reflexivity |];
  split; [prefix_of_order |];
  split; [intros ? ? [=] |];
  intros _; simpl; auto.

(** Lines 217-246 deliver nothing; they invoke the operations of the
    language model in order; when they reach the delivery the process has
    a credential, the final text is not empty and the video still has the
    path it was created with; without a credential they stop after the
    refine call at the latest. *)
Lemma prepare_recipe_inv (w : World) (m : Message) (video : Video.t) (audio : Audio.t)
    (s s1 : State) (r : outcome (option (Video.t * string))) :
  prepare_recipe w m video audio s = (r, s1) ->
  exists tr,
    st_trace s1 = st_trace s ++ tr /\
    send_attempts tr = [] /\
    (exists k, lm_calls tr = take k lm_order) /\
    (forall video' final, r = Val (Some (video', final)) ->
       final <> "" /\ api_key_missing w = false /\
       Video.filepath video' = Video.filepath video) /\
    (api_key_missing w = true ->
       lm_calls tr = [] \/ lm_calls tr = [RefineToRecipe]).
Proof.
  unfold prepare_recipe.
  destruct (reply_to w m Reply.fetching) as [e1|] eqn:H1.
  { rewrite (bind_exc _ _ _ _ _ (reply_rejected _ _ _ _ _ H1)).
    early_leaf [EvReply Reply.fetching false]. }
  rewrite (bind_val _ _ _ _ _ (reply_accepted _ _ _ _ H1)).
  unfold bind at 1, download_video.
  destruct (extract_info _ _ _ _ _) as [[info|] fs1]; simpl.
  2:{ destruct (reply_to w m Reply.no_video) as [e2|] eqn:H2.
      - rewrite (bind_exc _ _ _ _ _ (reply_rejected _ _ _ _ _ H2)).
        early_leaf [EvReply Reply.fetching true; EvReply Reply.no_video false].
      - rewrite (bind_val _ _ _ _ _ (reply_accepted _ _ _ _ H2)). unfold ret.
        early_leaf [EvReply Reply.fetching true; EvReply Reply.no_video true]. }
  destruct (truthy (info_description info)) eqn:Hd; simpl.
  2:{ destruct (reply_to w m Reply.no_description) as [e2|] eqn:H2.
      - rewrite (bind_exc _ _ _ _ _ (reply_rejected _ _ _ _ _ H2)).
        early_leaf [EvReply Reply.fetching true; EvReply Reply.no_description false].
      - rewrite (bind_val _ _ _ _ _ (reply_accepted _ _ _ _ H2)). unfold ret.
        early_leaf [EvReply Reply.fetching true; EvReply Reply.no_description true]. }
  destruct (reply_to w m Reply.refining) as [e2|] eqn:H2.
  { rewrite (bind_exc _ _ _ _ _ (reply_rejected _ _ _ _ _ H2)).
    early_leaf [EvReply Reply.fetching true; EvReply Reply.refining false]. }
  rewrite (bind_val _ _ _ _ _ (reply_accepted _ _ _ _ H2)).
  unfold bind at 1. rewrite refine_run.
  destruct (api_key_missing w) eqn:Hkey.
  { simpl. destruct (reply_to w m Reply.refine_error) as [e3|] eqn:H3.
    - rewrite (bind_exc _ _ _ _ _ (reply_rejected _ _ _ _ _ H3)).
      early_leaf [EvReply Reply.fetching true; EvReply Reply.refining true;
                  EvLM RefineToRecipe; EvReply Reply.refine_error false].
    - rewrite (bind_val _ _ _ _ _ (reply_accepted _ _ _ _ H3)). unfold ret.
      early_leaf [EvReply Reply.fetching true; EvReply Reply.refining true;
                  EvLM RefineToRecipe; EvReply Reply.refine_error true]. }
  destruct (truthy (generate_content w _)) eqn:Hr; simpl.
  2:{ destruct (reply_to w m Reply.refine_error) as [e3|] eqn:H3.
      - rewrite (bind_exc _ _ _ _ _ (reply_rejected _ _ _ _ _ H3)).
        early_leaf [EvReply Reply.fetching true; EvReply Reply.refining true;
                    EvLM RefineToRecipe; EvReply Reply.refine_error false].
      - rewrite (bind_val _ _ _ _ _ (reply_accepted _ _ _ _ H3)). unfold ret.
        early_leaf [EvReply Reply.fetching true; EvReply Reply.refining true;
                    EvLM RefineToRecipe; EvReply Reply.refine_error true]. }
  destruct (generate_content w _) as [refined|]; [| discriminate]. simpl in Hr |- *.
  unfold bind at 1.
  destruct (final_recipe_text w audio refined _) as [rf sf] eqn:Hf.
  apply final_recipe_text_inv in Hf as (tr & Htr & Hshape & Hexc & Hval).
  assert (Htrace : st_trace sf
                   = st_trace s ++ [EvReply Reply.fetching true;
                                    EvReply Reply.refining true;
                                    EvLM RefineToRecipe; EvLM ConvertToMetric] ++ tr).
  { rewrite Htr. unfold emit. simpl. rewrite <- !app_assoc. reflexivity. }
  destruct rf as [final|e|].
  - unfold ret. intros [= <- <-]. eexists; split; [exact Htrace |].
    destruct Hshape as [-> | [-> | ->]];
      (split; [reflexivity |]; split; [prefix_of_order |];
       split; [| discriminate]);
      intros ? ? [= <- <-];
      (split; [apply (Hval final eq_refl); now apply str_truthy_true | auto]).
  - now destruct (Hexc e).
  - intros [= <- <-]. eexists; split; [exact Htrace |].
    destruct Hshape as [-> | [-> | ->]];
      (split; [reflexivity |]; split; [prefix_of_order |];
       split; [intros ? ? [=] | discriminate]).
Qed.

(** Lines 248-280 never hang, and do one of three things: nothing, when
    the video file is not there; one delivery, accepted; or a rejected
    delivery followed by one more with the plain caption, whose exception,
    if any, they let through. *)
Lemma send_final_results_inv (w : World) (m : Message) (video : Video.t)
    (final : string) (s s1 : State) (r : outcome unit) :
  send_final_results w m video final s = (r, s1) ->
  exists tr,
    st_trace s1 = st_trace s ++ tr /\
    ((tr = [] /\ r = Val tt /\
      (Str.truthy (Video.filepath video) = false \/ Video.filepath video ∉ st_fs s))
     \/ (tr = [accepted_attempt video final] /\ r = Val tt)
     \/ (tr = [first_attempt video final; second_attempt video final true] /\ r = Val tt)
     \/ (exists e, tr = [first_attempt video final; second_attempt video final false]
                   /\ r = Exc e)).
Proof.
  unfold send_final_results, bind at 1, path_exists.
  destruct (Str.truthy (Video.filepath video)) eqn:Hp; simpl.
  2:{ intros [= <- <-]. exists []. split; [now rewrite app_nil_r | auto]. }
  case_bool_decide as Hin; simpl.
  2:{ intros [= <- <-]. exists []. split; [now rewrite app_nil_r | auto]. }
  unfold bind, open_rb, try_except, seek, bot_send_video. simpl.
  destruct (send_video w (chat_id m) (Caption.final_caption final) _) as [[e1|] n1].
  - destruct (send_video w (chat_id m) final None) as [[e2|] n2];
      intros [= <- <-]; simpl; rewrite <- app_assoc; simpl;
      (eexists; split; [reflexivity |]); eauto 10.
  - intros [= <- <-]. simpl. eexists; split; [reflexivity |]. auto.
Qed.

(** The three parts of the trace of a run: the recipe stages, the
    delivery, the report of an unexpected error. *)
Lemma process_url_inv (w : World) (url : string) (m : Message) (s s' : State)
    (o : outcome unit) :
  process_url w url m s = (o, s') ->
  exists tr1 tr2 tr3,
    st_trace s' = st_trace s ++ tr1 ++ tr2 ++ tr3 /\
    send_attempts tr1 = [] /\
    (exists k, lm_calls tr1 = take k lm_order) /\
    (api_key_missing w = true ->
       (lm_calls tr1 = [] \/ lm_calls tr1 = [RefineToRecipe]) /\ tr2 = []) /\
    (tr2 = [] \/
     exists video final,
       final <> "" /\
       (tr2 = [accepted_attempt video final]
        \/ exists ok, tr2 = [first_attempt video final; second_attempt video final ok])) /\
    (tr3 = [] \/ exists e ok, tr3 = [EvReply (Reply.unexpected e) ok]).
Proof.
  intros Hrun.
  destruct (process_url_via_body _ _ _ _ _ _ Hrun) as (r & s1 & Hbody & -> & _).
  clear Hrun o. rename r into o.
  unfold try_except, process_body, bind at 1 in Hbody.
  destruct (prepare_recipe _ _ _ _ _) as [rp sp] eqn:Hp.
  apply prepare_recipe_inv in Hp as (tr1 & Htr1 & Hsend1 & Hlm1 & Hsome & Hkey).
  assert (Hreport : forall e sb tr2,
            st_trace sb = st_trace s ++ tr1 ++ tr2 ->
            bot_reply_to w m (Reply.unexpected e) sb = (o, s1) ->
            exists tr3, st_trace s1 = st_trace s ++ tr1 ++ tr2 ++ tr3 /\
                        (tr3 = [] \/ exists e ok, tr3 = [EvReply (Reply.unexpected e) ok])).
  { intros e sb tr2 Hsb. unfold bot_reply_to, bind, log, raise.
    destruct (reply_to w m (Reply.unexpected e)); intros [= <- <-];
      unfold emit; simpl; rewrite Hsb, <- !app_assoc; eauto 10. }
  simpl in Htr1.
  destruct rp as [[[video final]|]|e|].
  - destruct (Hsome video final eq_refl) as (Hfinal & Hk & _).
    destruct (send_final_results w m video final sp) as [rs ss] eqn:Hs.
    apply send_final_results_inv in Hs as (tr2 & Htr2 & Hshape).
    assert (Hss : st_trace ss = st_trace s ++ tr1 ++ tr2)
      by (rewrite Htr2, Htr1, <- app_assoc; reflexivity).
    assert (Htr2shape :
              tr2 = [] \/
              exists video final,
                final <> "" /\
                (tr2 = [accepted_attempt video final]
                 \/ exists ok, tr2 = [first_attempt video final;
                                      second_attempt video final ok])).
    { destruct Hshape as [(-> & _) | [(-> & _) | [(-> & _) | (e & -> & _)]]];
        eauto 10. }
    assert (Hkey' : api_key_missing w = true ->
                    (lm_calls tr1 = [] \/ lm_calls tr1 = [RefineToRecipe]) /\ tr2 = [])
      by (intros Hm; congruence).
    destruct rs as [[]|e|].
    + inversion Hbody; subst. exists tr1, tr2, [].
      rewrite app_nil_r. auto 10.
    + destruct (Hreport e ss tr2 Hss Hbody) as (tr3 & Htr3 & Hshape3).
      exists tr1, tr2, tr3. auto 10.
    + inversion Hbody; subst. exists tr1, tr2, [].
      rewrite app_nil_r. auto 10.
  - unfold ret in Hbody. inversion Hbody; subst. exists tr1, [], [].
    rewrite !app_nil_r. split; [exact Htr1 |]. repeat split; auto.
    all: intros Hm; destruct (Hkey Hm); auto.
  - destruct (Hreport e sp [] ltac:(now rewrite app_nil_r) Hbody)
      as (tr3 & Htr3 & Hshape3).
    exists tr1, [], tr3. split; [exact Htr3 |]. repeat split; auto.
    all: intros Hm; destruct (Hkey Hm); auto.
  - inversion Hbody; subst. exists tr1, [], [].
    rewrite !app_nil_r. split; [exact Htr1 |]. repeat split; auto.
    all: intros Hm; destruct (Hkey Hm); auto.
Qed.

Lemma captions_delivered_none (tr : list event) :
  send_attempts tr = [] -> captions_delivered tr = [].
Proof.
  induction tr as [|ev tr IH]; [reflexivity |].
  destruct ev as [t ok|c pm pos wd ht du ok|op]; simpl; try exact IH.
  discriminate.
Qed.

(** The operations of the language model are invoked in the order refine,
    convert, transcribe, merge, each at most once; a run stops at any
    point of that sequence. *)
Theorem language_model_calls_in_order (w : World) (url : string) (m : Message)
    (s s' : State) (o : outcome unit) :
  process_url w url m s = (o, s') ->
  exists tr,
    st_trace s' = st_trace s ++ tr /\
    exists k, lm_calls tr = take k lm_order.
Proof.
  intros Hrun.
  destruct (process_url_inv _ _ _ _ _ _ Hrun)
    as (tr1 & tr2 & tr3 & Htr & _ & (k & Hk) & _ & H2 & H3).
  exists (tr1 ++ tr2 ++ tr3). split; [exact Htr |]. exists k.
  rewrite !lm_calls_app, Hk.
  assert (lm_calls tr2 = []) as ->
    by (destruct H2 as [-> | (v & f & _ & [-> | (ok & ->)])]; reflexivity).
  assert (lm_calls tr3 = []) as ->
    by (destruct H3 as [-> | (e & ok & ->)]; reflexivity).
  now rewrite !app_nil_r.
Qed.

(** A run attempts no delivery, or one with the formatted caption, or
    that one and a second with the plain text; the plain text is never
    empty, and at most one caption reaches the user. *)
Theorem deliveries_of_a_run (w : World) (url : string) (m : Message)
    (s s' : State) (o : outcome unit) :
  process_url w url m s = (o, s') ->
  exists tr,
    st_trace s' = st_trace s ++ tr /\
    (send_attempts tr = [] \/
     exists final,
       final <> "" /\
       (send_attempts tr = [(Caption.final_caption final, Some "MarkdownV2", 0)]
        \/ send_attempts tr = [(Caption.final_caption final, Some "MarkdownV2", 0);
                               (final, None, 0)])) /\
    length (captions_delivered tr) <= 1.
Proof.
  intros Hrun.
  destruct (process_url_inv _ _ _ _ _ _ Hrun)
    as (tr1 & tr2 & tr3 & Htr & H1 & _ & _ & H2 & H3).
  exists (tr1 ++ tr2 ++ tr3). split; [exact Htr |].
  rewrite !send_attempts_app, !captions_delivered_app, H1,
    (captions_delivered_none tr1 H1).
  assert (send_attempts tr3 = [] /\ captions_delivered tr3 = []) as [-> ->]
    by (destruct H3 as [-> | (e & ok & ->)]; split; reflexivity).
  rewrite !app_nil_r. simpl.
  destruct H2 as [-> | (v & f & Hf & [-> | (ok & ->)])]; simpl.
  - split; [left; reflexivity | lia].
  - split; [right; exists f; auto | lia].
  - split; [right; exists f; auto |]. destruct ok; simpl; lia.
Qed.

(** Without a credential a run delivers nothing, so none of the
    "API key not found" messages of the adapter reaches the user, and the
    only operation of the language model it may invoke is the refine
    call. *)
Theorem no_credential_no_delivery (w : World) (url : string) (m : Message)
    (s s' : State) (o : outcome unit) :
  api_key_missing w = true ->
  process_url w url m s = (o, s') ->
  exists tr,
    st_trace s' = st_trace s ++ tr /\
    send_attempts tr = [] /\
    (lm_calls tr = [] \/ lm_calls tr = [RefineToRecipe]).
Proof.
  intros Hkey Hrun.
  destruct (process_url_inv _ _ _ _ _ _ Hrun)
    as (tr1 & tr2 & tr3 & Htr & H1 & _ & Hmiss & _ & H3).
  destruct (Hmiss Hkey) as [Hlm ->].
  exists (tr1 ++ [] ++ tr3). split; [exact Htr |].
  rewrite !send_attempts_app, !lm_calls_app, H1.
  assert (send_attempts tr3 = [] /\ lm_calls tr3 = []) as [-> ->]
    by (destruct H3 as [-> | (e & ok & ->)]; split; reflexivity).
  simpl. rewrite !app_nil_r. auto.
Qed.

Lemma no_credential_no_delivery_witness :
  exists o s' tr,
    process_url Sample.no_key Sample.url Sample.message (initial_state ∅) = (o, s') /\
    st_trace s' = [] ++ tr /\
    send_attempts tr = [] /\
    (lm_calls tr = [] \/ lm_calls tr = [RefineToRecipe]).
Proof.
  eexists _, _.
  edestruct (no_credential_no_delivery Sample.no_key Sample.url Sample.message
               (initial_state ∅)) as (tr & H1 & H2 & H3);
    [reflexivity | vm_compute; reflexivity |].
  exists tr. split; [vm_compute; reflexivity |]. exact (conj H1 (conj H2 H3)).
Defined.

Lemma process_url_raises_only_from_the_report_witness :
  exists s' e,
    process_url Sample2.transport_down Sample.url Sample.message (initial_state ∅)
    = (Exc e, s') /\
    ((exists e0, reply_to Sample2.transport_down Sample.message (Reply.unexpected e0)
                 = Some e) \/
     remove_error Sample2.transport_down (Video.path_of 7 1700000000) = Some e \/
     remove_error Sample2.transport_down (Audio.path_of 7 1700000001) = Some e).
Proof.
  eexists _, _. split; [vm_compute; reflexivity |].
  eapply (process_url_raises_only_from_the_report Sample2.transport_down Sample.url
            Sample.message (initial_state ∅)).
  vm_compute; reflexivity.
Defined.

Lemma language_model_calls_in_order_witness :
  exists o s' tr,
    process_url Sample.friendly Sample.url Sample.message (initial_state ∅) = (o, s') /\
    st_trace s' = [] ++ tr /\
    exists k, lm_calls tr = take k lm_order.
Proof.
  eexists _, _.
  edestruct (language_model_calls_in_order Sample.friendly Sample.url Sample.message
               (initial_state ∅)) as (tr & H1 & H2); [vm_compute; reflexivity |].
  exists tr. split; [vm_compute; reflexivity |]. exact (conj H1 H2).
Defined.

Lemma deliveries_of_a_run_witness :
  exists o s' tr,
    process_url Sample.markup_rejected Sample.url Sample.message (initial_state ∅)
    = (o, s') /\
    st_trace s' = [] ++ tr /\
    (send_attempts tr = [] \/
     exists final,
       final <> "" /\
       (send_attempts tr = [(Caption.final_caption final, Some "MarkdownV2", 0)]
        \/ send_attempts tr = [(Caption.final_caption final, Some "MarkdownV2", 0);
                               (final, None, 0)])) /\
    length (captions_delivered tr) <= 1.
Proof.
  eexists _, _.
  edestruct (deliveries_of_a_run Sample.markup_rejected Sample.url Sample.message
               (initial_state ∅)) as (tr & H1 & H2 & H3); [vm_compute; reflexivity |].
  exists tr. split; [vm_compute; reflexivity |]. exact (conj H1 (conj H2 H3)).
Defined.

(** ** Early exits and the delivery *)

Lemma no_description_body (w : World) (url : string) (m : Message) (s : State)
    (info : VideoInfo) (fs1 : gset string) :
  extract_info w url (Video.path_of (chat_id m) (time_time w (st_reads s))) "mp4"
    (st_fs s) = (Some info, fs1) ->
  truthy (info_description info) = false ->
  replies_accepted w m ->
  try_except
    (process_body w m (Video.init url (chat_id m) (time_time w (st_reads s)))
       (Audio.init url (chat_id m) (time_time w (S (st_reads s)))))
    (fun e => bot_reply_to w m (Reply.unexpected e)) (entered s)
  = (Val tt,
     emit (mkState fs1 (S (S (st_reads s))) (st_pos s)
             (st_trace s ++ [EvReply Reply.fetching true]))
       (EvReply Reply.no_description true)).
Proof.
  intros Hdl Hdesc Hok.
  unfold_run. simpl. rewrite (Hok Reply.fetching). simpl. rewrite Hdl. simpl.
  rewrite Hdesc. simpl. rewrite (Hok Reply.no_description). simpl. reflexivity.
Qed.

(** When the download succeeds and reports no description, or an empty
    one, the run stops before any refinement: with a transport that
    accepts replies its whole trace is the status reply and the reply
    that no description could be fetched, it ends normally when no
    removal raises, and it does not depend on the audio downloader, which
    is never called. *)
Theorem no_description_stops_the_run (w : World) (url : string) (m : Message)
    (s s' : State) (o : outcome unit) (info : VideoInfo) (fs1 : gset string) :
  extract_info w url (Video.path_of (chat_id m) (time_time w (st_reads s))) "mp4"
    (st_fs s) = (Some info, fs1) ->
  truthy (info_description info) = false ->
  replies_accepted w m ->
  process_url w url m s = (o, s') ->
  (removals_succeed w m s -> o = Val tt) /\
  st_trace s' = st_trace s ++ [EvReply Reply.fetching true;
                               EvReply Reply.no_description true] /\
  (forall f, process_url (with_download f w) url m s = process_url w url m s).
Proof.
  intros Hdl Hdesc Hok Hrun.
  pose proof (no_description_body w url m s info fs1 Hdl Hdesc Hok) as Hbody.
  destruct (process_url_trace w url m s _ _ Hbody)
    as (o2 & s2 & Hrun2 & Htr & _ & Hsucc).
  rewrite Hrun in Hrun2. inversion Hrun2; subst.
  split; [exact Hsucc |]. split.
  - rewrite Htr. simpl. now rewrite <- app_assoc.
  - intros f.
    pose proof (no_description_body (with_download f w) url m s info fs1
                  Hdl Hdesc Hok) as Hbody'.
    rewrite !process_url_unfold. unfold try_finally.
    simpl in Hbody' |- *. rewrite Hbody', Hbody. reflexivity.
Qed.

Lemma no_description_stops_the_run_witness :
  exists o s',
    process_url Sample2.no_description Sample.url Sample.message (initial_state ∅)
    = (o, s') /\
    (removals_succeed Sample2.no_description Sample.message (initial_state ∅) ->
     o = Val tt) /\
    st_trace s' = [] ++ [EvReply Reply.fetching true;
                         EvReply Reply.no_description true] /\
    (forall f,
       process_url (with_download f Sample2.no_description) Sample.url Sample.message
         (initial_state ∅)
       = process_url Sample2.no_description Sample.url Sample.message (initial_state ∅)).
Proof.
  eexists _, _. split; [vm_compute; reflexivity |].
  eapply (no_description_stops_the_run Sample2.no_description Sample.url
            Sample.message (initial_state ∅));
    [reflexivity | reflexivity | intros t; reflexivity | vm_compute; reflexivity].
Defined.

(** When the run reaches the delivery and the video file is not on local
    storage, nothing is sent and nothing is said: the run ends normally
    with the trace it had. *)
Theorem missing_video_file_is_skipped (w : World) (url : string) (m : Message)
    (s s1 s' : State) (video : Video.t) (final : string) (o : outcome unit) :
  prepare_recipe w m (Video.init url (chat_id m) (time_time w (st_reads s)))
    (Audio.init url (chat_id m) (time_time w (S (st_reads s)))) (entered s)
    = (Val (Some (video, final)), s1) ->
  Video.filepath video ∉ st_fs s1 ->
  process_url w url m s = (o, s') ->
  (removals_succeed w m s -> o = Val tt) /\ st_trace s' = st_trace s1.
Proof.
  intros Hprep Hout Hrun.
  edestruct (process_url_trace w url m s) as (o2 & s2 & Hrun2 & Htr & Hor & Hsucc).
  { unfold try_except, process_body. rewrite (bind_val _ _ _ _ _ Hprep).
    unfold send_final_results, bind, path_exists.
    rewrite (bool_decide_eq_false_2 _ Hout), andb_false_r. reflexivity. }
  rewrite Hrun in Hrun2. inversion Hrun2; subst. auto.
Qed.

Lemma missing_video_file_is_skipped_witness :
  exists video final s1 o s',
    prepare_recipe Sample2.video_not_written Sample.message
      (Video.init Sample.url 7 1700000000) (Audio.init Sample.url 7 1700000001)
      (entered (initial_state ∅))
    = (Val (Some (video, final)), s1) /\
    process_url Sample2.video_not_written Sample.url Sample.message (initial_state ∅)
    = (o, s') /\
    (removals_succeed Sample2.video_not_written Sample.message (initial_state ∅) ->
     o = Val tt) /\
    st_trace s' = st_trace s1.
Proof.
  eexists _, _, _, _, _.
  split; [vm_compute; reflexivity |]. split; [vm_compute; reflexivity |].
  eapply (missing_video_file_is_skipped Sample2.video_not_written Sample.url
            Sample.message (initial_state ∅)).
  - vm_compute; reflexivity.
  - apply (proj1 (bool_decide_eq_false _)). vm_compute. reflexivity.
  - vm_compute; reflexivity.
Defined.

(** When the transport accepts the video with the formatted caption, that
    delivery is the only one: no second attempt, no further reply. *)
Theorem accepted_caption_is_sent_once (w : World) (url : string) (m : Message)
    (s s1 s' : State) (video : Video.t) (final : string) (n : nat)
    (o : outcome unit) :
  prepare_recipe w m (Video.init url (chat_id m) (time_time w (st_reads s)))
    (Audio.init url (chat_id m) (time_time w (S (st_reads s)))) (entered s)
    = (Val (Some (video, final)), s1) ->
  Video.filepath video ∈ st_fs s1 ->
  send_video w (chat_id m) (Caption.final_caption final) (Some "MarkdownV2")
    = (None, n) ->
  process_url w url m s = (o, s') ->
  (removals_succeed w m s -> o = Val tt) /\
  st_trace s' = st_trace s1 ++ [accepted_attempt video final] /\
  captions_delivered [accepted_attempt video final] = [Caption.final_caption final].
Proof.
  intros Hprep Hin Hsend Hrun.
  pose proof (prepare_recipe_filepath _ _ _ _ _ _ _ _ Hprep) as Hfp.
  edestruct (process_url_trace w url m s) as (o2 & s2 & Hrun2 & Htr & Hor & Hsucc).
  { unfold try_except, process_body. rewrite (bind_val _ _ _ _ _ Hprep).
    unfold send_final_results, bind, path_exists, open_rb, try_except,
      bot_send_video.
    rewrite (bool_decide_eq_true_2 _ Hin), Hfp. simpl. rewrite Hsend. reflexivity. }
  rewrite Hrun in Hrun2. inversion Hrun2; subst. rewrite Htr. simpl. auto.
Qed.

Lemma accepted_caption_is_sent_once_witness :
  exists video final s1 o s',
    prepare_recipe Sample.friendly Sample.message
      (Video.init Sample.url 7 1700000000) (Audio.init Sample.url 7 1700000001)
      (entered (initial_state ∅))
    = (Val (Some (video, final)), s1) /\
    process_url Sample.friendly Sample.url Sample.message (initial_state ∅)
    = (o, s') /\
    (removals_succeed Sample.friendly Sample.message (initial_state ∅) -> o = Val tt) /\
    st_trace s' = st_trace s1 ++ [accepted_attempt video final] /\
    captions_delivered [accepted_attempt video final] = [Caption.final_caption final].
Proof.
  eexists _, _, _, _, _.
  split; [vm_compute; reflexivity |]. split; [vm_compute; reflexivity |].
  eapply (accepted_caption_is_sent_once Sample.friendly Sample.url
            Sample.message (initial_state ∅)).
  - vm_compute; reflexivity.
  - vm_compute; reflexivity.
  - reflexivity.
  - vm_compute; reflexivity.
Defined.

(** When the audio is there and the transcription gives notes, the final
    text is the merged recipe if the merge call gives a non-empty text,
    and the recipe before the merge if it raises or gives nothing. *)
Theorem merge_failure_keeps_metric_recipe (w : World) (audio : Audio.t)
    (metric notes : string) (s s2 s3 : State) :
  api_key_missing w = false ->
  download_audio w audio s = (Val success, s2) ->
  analyze_audio_with_gemini w (Audio.filepath audio) s2 = (Val (Some notes), s3) ->
  notes <> "" ->
  with_audio_notes w audio metric s
  = (Val (py_or (generate_content w (Prompt.combine metric notes)) metric),
     emit s3 (EvLM MergeRecipeAndNotes)).
Proof.
  intros Hkey Hdl Hnotes Hn.
  unfold with_audio_notes. rewrite (bind_val _ _ _ _ _ Hdl). simpl.
  rewrite (bind_val _ _ _ _ _ Hnotes).
  rewrite (proj2 (str_truthy_true notes) Hn).
  unfold bind. rewrite combine_run, Hkey.
  destruct (generate_content w _) as [combined|]; [| reflexivity].
  simpl. now destruct (Str.truthy combined).
Qed.

Lemma merge_failure_keeps_metric_recipe_witness :
  exists s2 s3,
    download_audio Sample2.merge_down Sample.audio (initial_state ∅)
    = (Val success, s2) /\
    analyze_audio_with_gemini Sample2.merge_down (Audio.filepath Sample.audio) s2
    = (Val (Some "stir well"), s3) /\
    with_audio_notes Sample2.merge_down Sample.audio "250 g flour" (initial_state ∅)
    = (Val "250 g flour", emit s3 (EvLM MergeRecipeAndNotes)).
Proof.
  eexists _, _.
  split; [vm_compute; reflexivity |]. split; [vm_compute; reflexivity |].
  eapply (merge_failure_keeps_metric_recipe Sample2.merge_down Sample.audio
            "250 g flour" "stir well" (initial_state ∅));
    [reflexivity | vm_compute; reflexivity | vm_compute; reflexivity | discriminate].
Defined.

(** ** The fetcher and the janitor *)

(** [download_video] always returns.  It reports success exactly when the
    tool returned; it never changes the URL, the chat, the path or the
    format of the video; on failure it leaves the whole record, unset
    metadata included, as it was; and it puts nothing on the trace. *)
Theorem download_video_keeps_the_record (w : World) (video : Video.t) (s : State) :
  exists st video' s',
    download_video w video s = (Val (st, video'), s') /\
    (st = success <->
     is_Some (extract_info w (Video.url video) (Video.filepath video)
                (Video.format video) (st_fs s)).1) /\
    Video.url video' = Video.url video /\
    Video.chat_id video' = Video.chat_id video /\
    Video.filepath video' = Video.filepath video /\
    Video.format video' = Video.format video /\
    (st = failed -> video' = video) /\
    st_trace s' = st_trace s.
Proof.
  unfold download_video.
  destruct (extract_info _ _ _ _ _) as [[info|] fs1]; simpl;
    eexists _, _, _; (split; [reflexivity |]); simpl; repeat split;
    try discriminate; eauto; intros [? [=]].
Qed.

(** The [finally] block creates no file, removes none but the two of the
    run, and leaves the clock and the trace alone; it returns when no
    removal raises, and an exception it lets through is that of a
    removal. *)
Theorem cleanup_touches_only_its_paths (w : World) (video : Video.t) (audio : Audio.t)
    (s : State) :
  exists oc s',
    cleanup w video audio s = (oc, s') /\
    st_trace s' = st_trace s /\ st_reads s' = st_reads s /\
    (forall p,
       (p ∈ st_fs s' -> p ∈ st_fs s) /\
       (p ∈ st_fs s -> p <> Video.filepath video -> p <> Audio.filepath audio ->
        p ∈ st_fs s')) /\
    (remove_error w (Video.filepath video) = None ->
     remove_error w (Audio.filepath audio) = None -> oc = Val tt) /\
    (forall e, oc = Exc e ->
       remove_error w (Video.filepath video) = Some e \/
       remove_error w (Audio.filepath audio) = Some e) /\
    oc <> Hang.
Proof.
  unfold cleanup, bind, path_exists, remove, ret.
  destruct (remove_error w (Video.filepath video)) as [ev|] eqn:Hrv;
    destruct (remove_error w (Audio.filepath audio)) as [ea|] eqn:Hra;
    destruct (Str.truthy (Video.filepath video)),
      (Str.truthy (Audio.filepath audio));
    simpl; repeat case_bool_decide; simpl; rewrite ?Hra; simpl;
    (eexists _, _; split; [reflexivity |]; split; [reflexivity |];
     split; [reflexivity |];
     split; [intros p; simpl; rewrite ?elem_of_difference, ?elem_of_singleton; tauto |];
     split; [intros; congruence |];
     split; [intros ? [=]; subst; auto | discriminate]).
Qed.

(** ** The handlers and the start-up *)

(** A message in which no URL is found gets one reply and nothing else
    happens: no clock reading, no download, no call to the language
    model; the storage is untouched, and an exception of the reply
    propagates. *)
Theorem message_without_url (find_urls : string -> list string) (w : World)
    (m : Message) (s : State) :
  find_urls (text m) = [] ->
  exists ok,
    handle_message find_urls w m s
    = (match reply_to w m no_url_reply with None => Val tt | Some e => Exc e end,
       emit s (EvReply no_url_reply ok)) /\
    ok = bool_decide (reply_to w m no_url_reply = None).
Proof.
  intros Hnone. unfold handle_message. rewrite Hnone.
  unfold bot_reply_to, bind, log, raise.
  destruct (reply_to w m no_url_reply); eexists; split; reflexivity.
Qed.

Lemma message_without_url_witness :
  exists ok,
    handle_message Sample2.find_urls Sample.friendly Sample2.greeting (initial_state ∅)
    = (match reply_to Sample.friendly Sample2.greeting no_url_reply with
       | None => Val tt
       | Some e => Exc e
       end,
       emit (initial_state ∅) (EvReply no_url_reply ok)) /\
    ok = bool_decide (reply_to Sample.friendly Sample2.greeting no_url_reply = None).
Proof.
  apply (message_without_url Sample2.find_urls Sample.friendly Sample2.greeting
           (initial_state ∅)).
  reflexivity.
Defined.

Lemma main_polling_inv (which getenv : string -> option string) :
  main which getenv = Polling ->
  truthy (which "yt-dlp") = true /\ truthy (which "ffmpeg") = true /\
  truthy (getenv "TELEGRAM_BOT_TOKEN") = true /\
  truthy (getenv "GOOGLE_API_KEY") = true.
Proof.
  unfold main.
  destruct (truthy (which "yt-dlp")), (truthy (which "ffmpeg")),
    (truthy (getenv "TELEGRAM_BOT_TOKEN")), (truthy (getenv "GOOGLE_API_KEY"));
    simpl; intuition (try congruence).
Qed.

(** [main] reaches the polling loop exactly when both tools are found and
    both credentials are set to non-empty values; otherwise it exits with
    code 1. *)
Theorem main_polls_iff (which getenv : string -> option string) :
  (main which getenv = Polling <->
   truthy (which "yt-dlp") = true /\ truthy (which "ffmpeg") = true /\
   truthy (getenv "TELEGRAM_BOT_TOKEN") = true /\
   truthy (getenv "GOOGLE_API_KEY") = true) /\
  (main which getenv <> Polling -> main which getenv = Exit 1).
Proof.
  unfold main.
  destruct (truthy (which "yt-dlp")), (truthy (which "ffmpeg")),
    (truthy (getenv "TELEGRAM_BOT_TOKEN")), (truthy (getenv "GOOGLE_API_KEY"));
    simpl; intuition (try congruence).
Qed.

(** In a process that passed the start-up check of [main] and whose
    environment is the one [main] saw, no operation of the adapter returns
    an "API key not found" message: each text operation returns what the
    language model gave, or [None]. *)
Theorem started_process_has_credential (which getenv : string -> option string)
    (w : World) (t u : string) (s : State) :
  main which getenv = Polling ->
  GOOGLE_API_KEY w = getenv "GOOGLE_API_KEY" ->
  refine_with_gemini w t s
  = (Val (generate_content w (Prompt.refine t)), emit s (EvLM RefineToRecipe)) /\
  convert_recipe_to_metric w t s
  = (Val (generate_content w (Prompt.convert t)), emit s (EvLM ConvertToMetric)) /\
  combine_recipe_and_audio w t u s
  = (Val (generate_content w (Prompt.combine t u)), emit s (EvLM MergeRecipeAndNotes)).
Proof.
  intros Hmain Henv.
  apply main_polling_inv in Hmain as (_ & _ & _ & Hkey).
  assert (Hmissing : api_key_missing w = false)
    by (unfold api_key_missing; rewrite Henv, Hkey; reflexivity).
  now rewrite refine_run, convert_run, combine_run, Hmissing.
Qed.

Lemma started_process_has_credential_witness :
  refine_with_gemini Sample.friendly "2 cups flour" (initial_state ∅)
  = (Val (generate_content Sample.friendly (Prompt.refine "2 cups flour")),
     emit (initial_state ∅) (EvLM RefineToRecipe)) /\
  convert_recipe_to_metric Sample.friendly "2 cups flour" (initial_state ∅)
  = (Val (generate_content Sample.friendly (Prompt.convert "2 cups flour")),
     emit (initial_state ∅) (EvLM ConvertToMetric)) /\
  combine_recipe_and_audio Sample.friendly "2 cups flour" "stir well" (initial_state ∅)
  = (Val (generate_content Sample.friendly (Prompt.combine "2 cups flour" "stir well")),
     emit (initial_state ∅) (EvLM MergeRecipeAndNotes)).
Proof.
  apply (started_process_has_credential Sample2.which Sample2.getenv Sample.friendly);
    reflexivity.
Defined.

Lemma text_calls_remote_failure_witness :
  (refine_with_gemini Sample.lm_down "2 cups flour" (initial_state ∅)).1 = Val None /\
  (convert_recipe_to_metric Sample.lm_down "2 cups flour" (initial_state ∅)).1
  = Val None /\
  (combine_recipe_and_audio Sample.lm_down "2 cups flour" "stir well"
     (initial_state ∅)).1 = Val None.
Proof.
  apply (text_calls_remote_failure Sample.lm_down); [reflexivity |].
  intros prompt. reflexivity.
Defined.
